(** * date-and-daytime-range-picker: the range/state engine

    A shallow embedding of [src/date-and-daytime-range-picker.js] and the
    properties its specification states about it.

    Conventions of the embedding.
    - JavaScript numbers held in the component state are integers (every
      write goes through [Math.round], [parseInt] or an integer product), so
      state fields are [Z].  Quantities that are genuinely fractional in the
      source (pixel ratios, [value / step], centres of a window) are [Q], and
      [Math.round], [Math.floor], [Math.ceil] go from [Q] to [Z].  Magnitudes
      are assumed far below 2^53, where double arithmetic on these values is
      exact.
    - A date-only [Date] object (local midnight of a calendar day) is the
      number of that local day counted from 1970-01-01; its calendar fields
      are derived with the ECMAScript day/year/month algorithms.
    - The host's zone rules and [Intl.DateTimeFormat] are platform services:
      they are Section variables. *)

From Stdlib Require Import ZArith QArith Qround Qabs Qminmax Lia List String Ascii Bool.
From Stdlib Require Import DecimalString Lqa.
Import ListNotations.
Local Open Scope Z_scope.
#[local] Set Default Proof Using "Type".

(** ** JavaScript numbers *)

Module JS.

(** [Math.round]: nearest integer, ties towards +infinity. *)
Definition Math_round (x : Q) : Z := Qfloor (x + (1 # 2)).
Definition Math_floor (x : Q) : Z := Qfloor x.
Definition Math_ceil (x : Q) : Z := Qceiling x.

(** Truncation towards zero, the quotient behind JavaScript's [%]. *)
Definition trunc (x : Q) : Z := if Qle_bool 0 x then Qfloor x else Qceiling x.

(** [x % m] on numbers that may be fractional: the result has the sign of
    the dividend. *)
Definition remQ (x m : Q) : Q := (x - m * inject_Z (trunc (x / m)))%Q.

(** [x % m] on integers. *)
Definition rem (x m : Z) : Z := Z.rem x m.

(** [a / b] of two integers, as a number. *)
Definition div (a b : Z) : Q := (inject_Z a / inject_Z b)%Q.

(** [String(n)] for an integer [n]. *)
Definition String_of (n : Z) : string := NilZero.string_of_int (Z.to_int n).

Fixpoint repeat_char (c : ascii) (n : nat) : string :=
  match n with
  | O => EmptyString
  | S k => String c (repeat_char c k)
  end.

(** [s.padStart(n, c)] for a one-character filler. *)
Definition padStart (n : nat) (c : ascii) (s : string) : string :=
  (repeat_char c (n - String.length s) ++ s)%string.

Definition pad2 (n : Z) : string := padStart 2 "0"%char (String_of n).
Definition pad4 (n : Z) : string := padStart 4 "0"%char (String_of n).

Definition is_digit (c : ascii) : bool :=
  let n := nat_of_ascii c in (48 <=? n)%nat && (n <=? 57)%nat.

(** [Number(s)] for a string of decimal digits. *)
Definition Number_of_digits (cs : list ascii) : Z :=
  fold_left (fun acc c => 10 * acc + (Z.of_nat (nat_of_ascii c) - 48)) cs 0.

End JS.

(** ** ECMAScript date arithmetic (day numbers and calendar fields) *)

Module ESDate.

Definition msPerDay : Z := 86400000.

(** Day number of the first day of year [y]. *)
Definition DayFromYear (y : Z) : Z :=
  365 * (y - 1970) + (y - 1969) / 4 - (y - 1901) / 100 + (y - 1601) / 400.

Definition DaysInYear (y : Z) : Z :=
  if negb (y mod 4 =? 0) then 365
  else if negb (y mod 100 =? 0) then 366
  else if negb (y mod 400 =? 0) then 365
  else 366.

(** [InLeapYear], as 0 or 1. *)
Definition InLeapYear (y : Z) : Z := if DaysInYear y =? 366 then 1 else 0.

(** The largest year whose first day is not after day [n]: an estimate from
    the mean year length, corrected by at most one year. *)
Definition YearFromDay (n : Z) : Z :=
  let y0 := 1970 + (400 * n) / 146097 in
  if n <? DayFromYear y0 then y0 - 1
  else if DayFromYear (y0 + 1) <=? n then y0 + 1
  else y0.

Definition DayWithinYear (n : Z) : Z := n - DayFromYear (YearFromDay n).

(** Day within the year on which month [m] (0..11) starts. *)
Definition MonthStart (m leap : Z) : Z :=
  match m with
  | 0 => 0
  | 1 => 31
  | 2 => 59 + leap
  | 3 => 90 + leap
  | 4 => 120 + leap
  | 5 => 151 + leap
  | 6 => 181 + leap
  | 7 => 212 + leap
  | 8 => 243 + leap
  | 9 => 273 + leap
  | 10 => 304 + leap
  | _ => 334 + leap
  end.

(** [MonthFromTime], on day numbers: 0 = January. *)
Definition MonthFromDay (n : Z) : Z :=
  let d := DayWithinYear n in
  let leap := InLeapYear (YearFromDay n) in
  if d <? 31 then 0
  else if d <? 59 + leap then 1
  else if d <? 90 + leap then 2
  else if d <? 120 + leap then 3
  else if d <? 151 + leap then 4
  else if d <? 181 + leap then 5
  else if d <? 212 + leap then 6
  else if d <? 243 + leap then 7
  else if d <? 273 + leap then 8
  else if d <? 304 + leap then 9
  else if d <? 334 + leap then 10
  else 11.

(** [DateFromTime], on day numbers: the day of the month, from 1. *)
Definition DateFromDay (n : Z) : Z :=
  DayWithinYear n - MonthStart (MonthFromDay n) (InLeapYear (YearFromDay n)) + 1.

(** [MakeDay(year, month, date)]: months outside 0..11 carry into the year,
    days outside the month carry into neighbouring months. *)
Definition MakeDay (year month date : Z) : Z :=
  let ym := year + month / 12 in
  let mn := month mod 12 in
  DayFromYear ym + MonthStart mn (InLeapYear ym) + date - 1.

(** The legacy rule of the [Date] constructor and of [Date.UTC]: a year
    argument between 0 and 99 means 1900 + year. *)
Definition two_digit_year (y : Z) : bool := (0 <=? y) && (y <=? 99).
Definition MakeFullYear (y : Z) : Z := if two_digit_year y then 1900 + y else y.

(** [Date.UTC(y, m, d, h, mi, s)] in milliseconds. *)
Definition Date_UTC (y m d h mi s : Z) : Z :=
  MakeDay (MakeFullYear y) m d * msPerDay + h * 3600000 + mi * 60000 + s * 1000.

End ESDate.

(** ** The component *)

Import JS ESDate.

(** Failure of a platform call (a thrown [RangeError]) is [None]. *)
Notation "x <- e ;; k" := (match e with Some x => k | None => None end)
  (at level 61, e at next level, right associativity).

Definition Qlt_bool (x y : Q) : bool := negb (Qle_bool y x).

(** A date-only [Date]: the number of its local calendar day. *)
Definition JSDate : Type := Z.

(** The wall-clock fields [formatToParts] reports, read back with unary [+]. *)
Record DateParts : Type := mkParts {
  p_year : Z; p_month : Z; p_day : Z;
  p_hour : Z; p_minute : Z; p_second : Z
}.

(** [#state] once [#initDefaults] has run ([minDate], [maxDate] are set). *)
Record State : Type := mkState {
  minDate : JSDate; maxDate : JSDate;
  dateMin : Z; dateMax : Z; dateStart : Z; dateEnd : Z; dateStepDays : Z;
  timeMin : Z; timeMax : Z; timeStart : Z; timeEnd : Z; timeStep : Z;
  timeZone : string
}.

Definition with_dates (S : State) (s e : Z) : State :=
  mkState (minDate S) (maxDate S) (dateMin S) (dateMax S) s e (dateStepDays S)
          (timeMin S) (timeMax S) (timeStart S) (timeEnd S) (timeStep S) (timeZone S).

Definition with_times (S : State) (s e : Z) : State :=
  mkState (minDate S) (maxDate S) (dateMin S) (dateMax S) (dateStart S) (dateEnd S)
          (dateStepDays S) (timeMin S) (timeMax S) s e (timeStep S) (timeZone S).

Definition with_timeZone (S : State) (tz : string) : State :=
  mkState (minDate S) (maxDate S) (dateMin S) (dateMax S) (dateStart S) (dateEnd S)
          (dateStepDays S) (timeMin S) (timeMax S) (timeStart S) (timeEnd S)
          (timeStep S) tz.

Definition with_bounds (S : State) (minD maxD : JSDate) (lo hi : Z) : State :=
  mkState minD maxD lo hi (dateStart S) (dateEnd S) (dateStepDays S)
          (timeMin S) (timeMax S) (timeStart S) (timeEnd S) (timeStep S) (timeZone S).

(** What a caller may hand to [#coerceDateOnly]. *)
Inductive DateInput : Type :=
| VDate (d : JSDate)
| VString (s : string)
| VNull.

(** The detail object of an emitted event. *)
Record Payload : Type := mkPayload {
  ev_dateStart : string; ev_dateEnd : string;
  ev_timeStart : string; ev_timeEnd : string;
  ev_timeZone : string; ev_crossesMidnight : bool;
  ev_timeStartMinutes : Z; ev_timeEndMinutes : Z;
  rangeStartDateTimeISO : string; rangeEndDateTimeISO : string
}.

Inductive EventType : Type := input | change.

(** What a handler leaves behind besides the state: the events dispatched,
    or [None] when the zone formatter threw on the way. *)
Definition Outcome : Type := option (list (EventType * Payload)).

(** The snapshot taken at pointer-down ([init]). *)
Record Snapshot : Type := mkSnapshot {
  sn_a : Z; sn_b : Z; sn_min : Z; sn_max : Z; sn_step : Z; sn_span : Z
}.

(** One pointer gesture on a track: its kind, the snapshot, the track's
    width at pointer-down and whether it has become a drag. *)
Record Gesture : Type := mkGesture {
  g_isDate : bool; g_init : Snapshot; g_width : Q; g_dragged : bool
}.

(** One tick of a track: where it stands in the domain, its position along
    the track, whether it is emphasised, and its label if it has one. *)
Record Tick : Type := mkTick {
  tick_at : Z; tick_pct : Q; tick_strong : bool; tick_label : option string
}.

(** The observed attributes, and their values on the element. *)
Inductive AttrName : Type := min_date | max_date | time_step | date_step_days | default_tz.

Record Attrs : Type := mkAttrs {
  attr_minDate : option string; attr_maxDate : option string;
  attr_timeStep : option string; attr_dateStepDays : option string;
  attr_defaultTz : option string
}.

Section Picker.

(** The host zone: its UTC offset, in milliseconds, in effect at local
    midnight of local day [n]. *)
Variable hostOffsetMs : Z -> Z.

(** [new Intl.DateTimeFormat('en-US', {timeZone: tz, hour12: false, ...})
    .formatToParts(new Date(epochMs))]; [None] when the zone is rejected. *)
Variable formatToParts : string -> Z -> option DateParts.

(** *** Date objects *)

Definition getTime (d : JSDate) : Z := d * msPerDay - hostOffsetMs d.
Definition getFullYear (d : JSDate) : Z := YearFromDay d.
Definition getMonth (d : JSDate) : Z := MonthFromDay d.
Definition getDate (d : JSDate) : Z := DateFromDay d.

(** [new Date(y, m, d)]. *)
Definition newDate (y m d : Z) : JSDate := MakeDay (MakeFullYear y) m d.

(** [dt.setDate(k)]. *)
Definition setDate (dt : JSDate) (k : Z) : JSDate :=
  MakeDay (YearFromDay dt) (MonthFromDay dt) k.

(** *** Helpers *)

Definition snapToStep (value step : Z) : Z := Math_round (JS.div value step) * step.
Definition clamp (lo hi v : Z) : Z := Z.max lo (Z.min hi v).

(** [#todayLocal], given the local day [now] of the current instant. *)
Definition todayLocal (now : JSDate) : JSDate :=
  newDate (getFullYear now) (getMonth now) (getDate now).

(** The test [/^\d{4}-\d{2}-\d{2}$/] and the three numbers of
    [v.split('-').map(Number)]. *)
Definition date_fields (s : string) : option (Z * Z * Z) :=
  match list_ascii_of_string s with
  | [y1; y2; y3; y4; h1; m1; m2; h2; d1; d2] =>
      if forallb is_digit [y1; y2; y3; y4; m1; m2; d1; d2]
         && Ascii.eqb h1 "-"%char && Ascii.eqb h2 "-"%char
      then Some (Number_of_digits [y1; y2; y3; y4],
                 Number_of_digits [m1; m2],
                 Number_of_digits [d1; d2])
      else None
  | _ => None
  end.

Definition coerceDateOnly (v : DateInput) : option JSDate :=
  match v with
  | VDate d => Some (newDate (getFullYear d) (getMonth d) (getDate d))
  | VString s =>
      match date_fields s with
      | Some (y, m, d) => Some (newDate y (m - 1) d)
      | None => None
      end
  | VNull => None
  end.

Definition fmtDateISO (d : JSDate) : string :=
  (String_of (getFullYear d) ++ "-" ++ pad2 (getMonth d + 1) ++ "-" ++ pad2 (getDate d))%string.

Definition minToHMS (min : Z) : Z * Z * Z :=
  (Math_floor (JS.div min 60), JS.rem min 60, 0).

Definition daysBetween (a b : JSDate) : Z :=
  let ad := getTime (newDate (getFullYear a) (getMonth a) (getDate a)) in
  let bd := getTime (newDate (getFullYear b) (getMonth b) (getDate b)) in
  Math_round (JS.div (bd - ad) msPerDay).

Definition dateToIdx (S : State) (d : JSDate) : Z := daysBetween (minDate S) d.
Definition idxToDate (S : State) (idx : Z) : JSDate :=
  setDate (minDate S) (getDate (minDate S) + idx).

Definition clampAndSyncDates (S : State) : State :=
  let s := snapToStep (clamp (dateMin S) (dateMax S) (dateStart S)) (dateStepDays S) in
  let e := snapToStep (clamp (dateMin S) (dateMax S) (dateEnd S)) (dateStepDays S) in
  if s >? e then with_dates S e s else with_dates S s e.

Definition clampAndSyncTimes (S : State) : State :=
  with_times S
    (snapToStep (clamp (timeMin S) (timeMax S) (timeStart S)) (timeStep S))
    (snapToStep (clamp (timeMin S) (timeMax S) (timeEnd S)) (timeStep S)).

(** *** Init *)

Definition initDateBounds (attrMin attrMax : DateInput) (now : JSDate) (S : State) : State :=
  let today := todayLocal now in
  let fallback := (setDate today (getDate today - 30), today) in
  let '(minD, maxD) :=
    match coerceDateOnly attrMin, coerceDateOnly attrMax with
    | Some a, Some b => if getTime a >? getTime b then fallback else (a, b)
    | _, _ => fallback
    end in
  with_bounds S minD maxD 0 (daysBetween minD maxD).

(** *** Tick builders *)

Definition dateTickCandidates : list Z := [1; 2; 5; 7; 14; 30; 60; 90; 120; 180; 365].

Definition tickDiff (totalDays target c : Z) : Q :=
  Qabs (JS.div totalDays c - inject_Z target).

(** The body of the loop: keep the candidate seen so far unless [c] is
    strictly closer to the target. *)
Definition keepCloser (totalDays target : Z) (acc : Z * Q) (c : Z) : Z * Q :=
  let diff := tickDiff totalDays target c in
  if Qlt_bool diff (snd acc) then (c, diff) else acc.

Definition chooseDateTickStep (totalDays target : Z) : Z :=
  let c0 := nth 0 dateTickCandidates 0 in
  fst (fold_left (keepCloser totalDays target) dateTickCandidates
                 (c0, tickDiff totalDays target c0)).

(** *** Time zone math *)

(** The offset is a whole number of minutes at the instants the component
    forms (whole minutes, in zones whose offsets are whole minutes), so the
    division is exact. *)
Definition getOffsetMinutes (tz : string) (epochMs : Z) : option Z :=
  p <- formatToParts tz epochMs ;;
  let asUTCms := Date_UTC (p_year p) (p_month p - 1) (p_day p)
                          (p_hour p) (p_minute p) (p_second p) in
  Some ((asUTCms - epochMs) / 60000).

(** The loop of [#localToEpoch]: at most [i] more corrections. *)
Fixpoint refineOffset (tz : string) (guess : Z) (i : nat) (off epoch : Z) : option Z :=
  match i with
  | O => Some epoch
  | S i' =>
      noff <- getOffsetMinutes tz epoch ;;
      if noff =? off then Some epoch
      else refineOffset tz guess i' noff (guess - noff * 60000)
  end.

Definition localToEpoch (tz : string) (y M d h m s : Z) : option Z :=
  let guess := Date_UTC y (M - 1) d h m s in
  off <- getOffsetMinutes tz guess ;;
  epoch <- refineOffset tz guess 4 off (guess - off * 60000) ;;
  p <- formatToParts tz epoch ;;
  let ok := (p_year p =? y) && (p_month p =? M) && (p_day p =? d)
            && (p_hour p =? h) && (p_minute p =? m) && (p_second p =? s) in
  Some (if ok then epoch else epoch + 3600000).

Definition toISOWithOffset (tz : string) (y M d h m s : Z) : option string :=
  epoch <- localToEpoch tz y M d h m s ;;
  off <- getOffsetMinutes tz epoch ;;
  let sign := if 0 <=? off then "+"%string else "-"%string in
  let abs := Z.abs off in
  let oh := pad2 (Math_floor (JS.div abs 60)) in
  let om := pad2 (JS.rem abs 60) in
  Some (pad4 y ++ "-" ++ pad2 M ++ "-" ++ pad2 d ++ "T"
        ++ pad2 h ++ ":" ++ pad2 m ++ ":" ++ pad2 s ++ sign ++ oh ++ ":" ++ om)%string.

(** *** Event emitter *)

Definition emit (S : State) : option Payload :=
  let dS := idxToDate S (dateStart S) in
  let dE := idxToDate S (dateEnd S) in
  let '(sH, sM, sS) := minToHMS (timeStart S) in
  let '(eH, eM, eS) := minToHMS (timeEnd S) in
  let tz := timeZone S in
  let crossesMidnight := timeEnd S <? timeStart S in
  let endDateForRange := if crossesMidnight then setDate dE (getDate dE + 1) else dE in
  startDTISO <- toISOWithOffset tz (getFullYear dS) (getMonth dS + 1) (getDate dS) sH sM sS ;;
  endDTISO <- toISOWithOffset tz (getFullYear endDateForRange)
                (getMonth endDateForRange + 1) (getDate endDateForRange) eH eM eS ;;
  Some (mkPayload (fmtDateISO dS) (fmtDateISO dE)
          (pad2 sH ++ ":" ++ pad2 sM ++ ":" ++ pad2 sS)%string
          (pad2 eH ++ ":" ++ pad2 eM ++ ":" ++ pad2 eS)%string
          tz crossesMidnight (timeStart S) (timeEnd S) startDTISO endDTISO).

Definition dispatch (type : EventType) (S : State) : Outcome :=
  p <- emit S ;; Some [(type, p)].

(** The last [n] characters of [s] ([s.slice(-n)]). *)
Definition slice_last (n : nat) (s : string) : string :=
  String.substring (String.length s - n) n s.

(** [#renderTZ]: the offset preview it writes. *)
Definition renderTZ (S : State) : option string :=
  let d := idxToDate S (dateStart S) in
  let '(h, m, s) := minToHMS (timeStart S) in
  iso <- toISOWithOffset (timeZone S) (getFullYear d) (getMonth d + 1) (getDate d) h m s ;;
  Some (timeZone S ++ " offset: " ++ slice_last 6 iso)%string.

(** Run [first]; when it did not throw, go on with [next]. *)
Definition andThen {A : Type} (first : option A) (next : Outcome) : Outcome :=
  _ <- first ;; next.

Definition seqOutcome (o1 o2 : Outcome) : Outcome :=
  l1 <- o1 ;; l2 <- o2 ;; Some (l1 ++ l2).

(** *** Public API *)

Definition get_timeRange (S : State) : Z * Z * bool :=
  (timeStart S, timeEnd S, timeEnd S <? timeStart S).

Definition set_dateRange (vstart vend : DateInput) (S : State) : State * Outcome :=
  match coerceDateOnly vstart, coerceDateOnly vend with
  | Some start, Some end_ =>
      let S1 := clampAndSyncDates (with_dates S (dateToIdx S start) (dateToIdx S end_)) in
      (S1, dispatch change S1)
  | _, _ => (S, Some [])
  end.

Definition set_timeRange (startMinutes endMinutes : Q) (S : State) : State * Outcome :=
  let s := clamp 0 1439 (Math_round startMinutes) in
  let e := clamp 0 1439 (Math_round endMinutes) in
  let S1 := clampAndSyncTimes (with_times S s e) in
  (S1, andThen (renderTZ S1) (dispatch change S1)).

Definition set_timeZone (v : string) (S : State) : State * Outcome :=
  match v with
  | EmptyString => (S, Some [])
  | _ =>
      let S1 := with_timeZone S v in
      (S1, andThen (renderTZ S1) (dispatch change S1))
  end.

(** *** Track drag and recenter-on-click *)

Definition snapshotOf (isDate : bool) (S : State) : Snapshot :=
  if isDate
  then mkSnapshot (dateStart S) (dateEnd S) (dateMin S) (dateMax S)
                  (dateStepDays S) (dateMax S - dateMin S)
  else mkSnapshot (timeStart S) (timeEnd S) (timeMin S) (timeMax S)
                  (timeStep S) (timeMax S - timeMin S).

Definition onPointerDown (isDate : bool) (rectWidth : Q) (S : State) : Gesture :=
  mkGesture isDate (snapshotOf isDate S) rectWidth false.

(** The shift of a drag before any clamping: the displacement ratio scaled
    to the domain, rounded, then rounded to a multiple of the step. *)
Definition steppedShift (ratio : Q) (scale step : Z) : Z :=
  let shift := Math_round (ratio * inject_Z scale) in
  Math_round (JS.div shift step) * step.

Definition minShiftStep (lo a step : Z) : Z := Math_ceil (JS.div (lo - a) step) * step.
Definition maxShiftStep (hi b step : Z) : Z := Math_floor (JS.div (hi - b) step) * step.

(** [Math.max(minShiftStep, Math.min(maxShiftStep, shift))]. *)
Definition clampShift (lo hi a b step shift : Z) : Z :=
  Z.max (minShiftStep lo a step) (Z.min (maxShiftStep hi b step) shift).

Definition wrap (v : Z) : Z := JS.rem (JS.rem v 1440 + 1440) 1440.

(** [onPointerMove] at displacement [(dx, dy)] from the down point;
    [Math.hypot(dx, dy) > 6] is [dx^2 + dy^2 > 36]. *)
Definition onPointerMove (g : Gesture) (dx dy : Q) (S : State) : Gesture * State * Outcome :=
  let dragged := g_dragged g || Qlt_bool 36 (dx * dx + dy * dy) in
  let g' := mkGesture (g_isDate g) (g_init g) (g_width g) dragged in
  if negb dragged then (g', S, Some [])
  else
    let init := g_init g in
    let ratio := if Qeq_bool (g_width g) 0 then 0%Q else (dx / g_width g)%Q in
    if g_isDate g then
      let shift := clampShift (sn_min init) (sn_max init) (sn_a init) (sn_b init) (sn_step init)
                     (steppedShift ratio (sn_span init) (sn_step init)) in
      let S' := with_dates S (sn_a init + shift) (sn_b init + shift) in
      (g', S', dispatch input S')
    else
      let shift := steppedShift ratio (sn_span init + 1) (sn_step init) in
      let S' := with_times S (wrap (sn_a init + shift)) (wrap (sn_b init + shift)) in
      (g', S', andThen (renderTZ S') (dispatch input S')).

Definition recenterDateAt (ratio : Q) (S : State) : State * Outcome :=
  let r := Qmax 0 (Qmin 1 ratio) in
  let span := dateMax S - dateMin S in
  let currentCenter := (inject_Z (dateStart S + dateEnd S) / 2)%Q in
  let targetCenter := (inject_Z (dateMin S) + r * inject_Z span)%Q in
  let shift := (targetCenter - currentCenter)%Q in
  let shift := Math_round (shift / inject_Z (dateStepDays S)) * dateStepDays S in
  let shift := clampShift (dateMin S) (dateMax S) (dateStart S) (dateEnd S)
                 (dateStepDays S) shift in
  let S' := with_dates S (dateStart S + shift) (dateEnd S + shift) in
  (S', dispatch input S').

Definition recenterTimeAt (ratio : Q) (S : State) : State * Outcome :=
  let r := Qmax 0 (Qmin 1 ratio) in
  let width := if timeEnd S >=? timeStart S then timeEnd S - timeStart S
               else 1440 - timeStart S + timeEnd S in
  let center := remQ (inject_Z (timeStart S) + inject_Z width / 2) 1440 in
  let center := remQ (center + 1440) 1440 in
  let target := Math_round (r * 1439) in
  let target := JS.rem (JS.rem target 1440 + 1440) 1440 in
  let shift := (inject_Z target - center)%Q in
  let shift := Math_round (shift / inject_Z (timeStep S)) * timeStep S in
  let S' := with_times S (wrap (timeStart S + shift)) (wrap (timeEnd S + shift)) in
  (S', andThen (renderTZ S') (dispatch input S')).

(** [onPointerUp] with the pointer at [clientX] over a track whose rectangle
    is now [left .. left + width]. *)
Definition onPointerUp (g : Gesture) (left width clientX : Q) (S : State) : State * Outcome :=
  if negb (g_dragged g) then
    let right := (left + width)%Q in
    let clickRatio := if Qeq_bool width 0 then (1 # 2)%Q
                      else ((Qmin right (Qmax left clientX) - left) / width)%Q in
    let '(S', o) := if g_isDate g then recenterDateAt clickRatio S
                    else recenterTimeAt clickRatio S in
    (S', seqOutcome o (dispatch change S'))
  else (S, dispatch change S).

(** The wrap-aware width of a time window. *)
Definition timeWidth (S : State) : Z := (timeEnd S - timeStart S) mod 1440.

Definition crossesMidnight (start end_ : Z) : bool := end_ <? start.

(** The wall-clock fields of instant [t] in the zone ["UTC"]. *)
Definition utcParts (t : Z) : DateParts :=
  let day := t / msPerDay in
  let ms := t mod msPerDay in
  mkParts (YearFromDay day) (MonthFromDay day + 1) (DateFromDay day)
          (ms / 3600000) ((ms mod 3600000) / 60000) ((ms mod 60000) / 1000).

(** [c] attains the least [tickDiff] among the candidates. *)
Definition minimizesTickDiff (totalDays target c : Z) : Prop :=
  forall c', In c' dateTickCandidates ->
    (tickDiff totalDays target c <= tickDiff totalDays target c')%Q.

(** A sequence of [pointermove] events, each given by its displacement from
    the down point. *)
Fixpoint dragMoves (g : Gesture) (S : State) (moves : list (Q * Q)) : Gesture * State :=
  match moves with
  | [] => (g, S)
  | (dx, dy) :: rest =>
      let '(g', S', _) := onPointerMove g dx dy S in
      dragMoves g' S' rest
  end.

(** A whole gesture on one track: pointer-down, moves, pointer-up.  It is a
    drag of the window when a move left the click threshold, and a recenter
    on the released position otherwise. *)
Definition runGesture (isDate : bool) (rectWidth : Q) (moves : list (Q * Q))
    (left width clientX : Q) (S : State) : State :=
  let '(g, S1) := dragMoves (onPointerDown isDate rectWidth S) S moves in
  fst (onPointerUp g left width clientX S1).

(** The [#state] literal of the class, with the date bounds filled in. *)
Definition initialState (minD maxD : JSDate) : State :=
  mkState minD maxD 0 0 0 0 1 0 (24 * 60 - 1) (22 * 60) (6 * 60) 15 "UTC".

(** The steps are at least 1: every write of a step goes through
    [Math.max(1, ...)]. *)
Definition stepsValid (S : State) : Prop := 1 <= dateStepDays S /\ 1 <= timeStep S.


(** The offset timestamp of local day [d] at minute-of-day [minutes] in
    zone [tz], as [#emit] forms it. *)
Definition offsetTimestamp (tz : string) (d : JSDate) (minutes : Z) : option string :=
  let '(h, m, s) := minToHMS minutes in
  toISOWithOffset tz (getFullYear d) (getMonth d + 1) (getDate d) h m s.

(** During a gesture the snapshot and the live selection have one width. *)
Definition sameWidth (g : Gesture) (S : State) : Prop :=
  if g_isDate g
  then sn_b (g_init g) - sn_a (g_init g) = dateEnd S - dateStart S
  else (sn_b (g_init g) - sn_a (g_init g)) mod 1440 = timeWidth S.

(** *** Text of times *)

Definition fmtHHMMSS (min : Z) : string :=
  (pad2 (Math_floor (JS.div min 60)) ++ ":" ++ pad2 (JS.rem min 60) ++ ":00")%string.

(** [parseTime] of [#wireEvents]: the test [/^\d{2}:\d{2}(:\d{2})?$/], then
    hours and minutes from [val.split(':').map(Number)]; the seconds, when
    present, are matched but not read. *)
Definition parseTime (val : string) : option Z :=
  let minutesOf (h1 h2 m1 m2 : ascii) : option Z :=
    let H := Number_of_digits [h1; h2] in
    let M := Number_of_digits [m1; m2] in
    if (H >? 23) || (M >? 59) then None else Some (H * 60 + M) in
  match list_ascii_of_string val with
  | [h1; h2; c1; m1; m2] =>
      if forallb is_digit [h1; h2; m1; m2] && Ascii.eqb c1 ":"%char
      then minutesOf h1 h2 m1 m2 else None
  | [h1; h2; c1; m1; m2; c2; s1; s2] =>
      if forallb is_digit [h1; h2; m1; m2; s1; s2]
         && Ascii.eqb c1 ":"%char && Ascii.eqb c2 ":"%char
      then minutesOf h1 h2 m1 m2 else None
  | _ => None
  end.

(** *** Input handlers *)

Definition get_dateRange (S : State) : JSDate * JSDate :=
  (idxToDate S (dateStart S), idxToDate S (dateEnd S)).

(** The [input] listeners of the two date fields. *)
Definition onDateStartInput (value : string) (S : State) : State * Outcome :=
  match coerceDateOnly (VString value) with
  | None => (S, Some [])
  | Some d =>
      let S1 := clampAndSyncDates (with_dates S (dateToIdx S d) (dateEnd S)) in
      (S1, dispatch input S1)
  end.

Definition onDateEndInput (value : string) (S : State) : State * Outcome :=
  match coerceDateOnly (VString value) with
  | None => (S, Some [])
  | Some d =>
      let S1 := clampAndSyncDates (with_dates S (dateStart S) (dateToIdx S d)) in
      (S1, dispatch input S1)
  end.

(** [onDateThumb], given the numbers the two range inputs hold. *)
Definition onDateThumb (startValue endValue : Q) (S : State) : State * Outcome :=
  let S1 := clampAndSyncDates
              (with_dates S (Math_round startValue) (Math_round endValue)) in
  (S1, dispatch input S1).

(** The [input] listeners of the two time fields. *)
Definition onTimeStartInput (value : string) (S : State) : State * Outcome :=
  match parseTime value with
  | None => (S, Some [])
  | Some m =>
      let S1 := clampAndSyncTimes (with_times S m (timeEnd S)) in
      (S1, andThen (renderTZ S1) (dispatch input S1))
  end.

Definition onTimeEndInput (value : string) (S : State) : State * Outcome :=
  match parseTime value with
  | None => (S, Some [])
  | Some m =>
      let S1 := clampAndSyncTimes (with_times S (timeStart S) m) in
      (S1, andThen (renderTZ S1) (dispatch input S1))
  end.

Definition onTimeThumb (startValue endValue : Q) (S : State) : State * Outcome :=
  let S1 := clampAndSyncTimes
              (with_times S (Math_round startValue) (Math_round endValue)) in
  (S1, andThen (renderTZ S1) (dispatch input S1)).

(** *** Attributes *)

(** [parseInt(s, 10)] of the platform; [None] is [NaN]. *)
Variable parseInt10 : string -> option Z.

Definition with_timeStep (S : State) (n : Z) : State :=
  mkState (minDate S) (maxDate S) (dateMin S) (dateMax S) (dateStart S) (dateEnd S)
          (dateStepDays S) (timeMin S) (timeMax S) (timeStart S) (timeEnd S) n (timeZone S).

Definition with_dateStepDays (S : State) (n : Z) : State :=
  mkState (minDate S) (maxDate S) (dateMin S) (dateMax S) (dateStart S) (dateEnd S)
          n (timeMin S) (timeMax S) (timeStart S) (timeEnd S) (timeStep S) (timeZone S).

(** [getAttribute(name)] as [#coerceDateOnly] receives it. *)
Definition attrInput (a : option string) : DateInput :=
  match a with Some s => VString s | None => VNull end.

(** [Math.max(1, parseInt(newVal ?? fallbackText, 10) || fallback)]:
    [NaN] and 0 are falsy. *)
Definition stepOfAttribute (fallbackText : string) (fallback : Z)
    (newVal : option string) : Z :=
  let parsed := parseInt10 (match newVal with Some s => s | None => fallbackText end) in
  Z.max 1 (match parsed with
           | Some n => if n =? 0 then fallback else n
           | None => fallback
           end).

(** [if (newVal) this.#state.timeZone = newVal]. *)
Definition zoneOfAttribute (newVal : option string) (S : State) : State :=
  match newVal with
  | Some (String c rest) => with_timeZone S (String c rest)
  | _ => S
  end.

Definition sameValue (a b : option string) : bool :=
  match a, b with
  | None, None => true
  | Some x, Some y => String.eqb x y
  | _, _ => false
  end.

(** [attributeChangedCallback], before ([ready = false]) and after the
    template is attached; [attrs] are the element's attributes as
    [getAttribute] reads them during the call. *)
Definition attributeChangedCallback (ready : bool) (attrs : Attrs) (name : AttrName)
    (oldVal newVal : option string) (now : JSDate) (S : State) : State * Outcome :=
  if sameValue oldVal newVal then (S, Some [])
  else if negb ready then
    match name with
    | default_tz => (zoneOfAttribute newVal S, Some [])
    | time_step => (with_timeStep S (stepOfAttribute "15" 15 newVal), Some [])
    | date_step_days => (with_dateStepDays S (stepOfAttribute "1" 1 newVal), Some [])
    | min_date | max_date => (S, Some [])
    end
  else
    match name with
    | min_date | max_date =>
        let S1 := clampAndSyncDates
                    (initDateBounds (attrInput (attr_minDate attrs))
                                    (attrInput (attr_maxDate attrs)) now S) in
        (S1, dispatch change S1)
    | time_step =>
        let S1 := with_timeStep S (stepOfAttribute "15" 15 newVal) in
        (S1, andThen (renderTZ S1) (dispatch change S1))
    | date_step_days =>
        let S1 := with_dateStepDays S (stepOfAttribute "1" 1 newVal) in
        (S1, dispatch change S1)
    | default_tz =>
        let S1 := zoneOfAttribute newVal S in
        (S1, andThen (renderTZ S1) (andThen (renderTZ S1) (dispatch change S1)))
    end.

(** [#initDefaults]; [sysTZ] is the zone the host resolves (empty when it
    resolves none). *)
Definition initDefaults (attrs : Attrs) (sysTZ : string) (now : JSDate) (S : State) : State :=
  let tz := match attr_defaultTz attrs with
            | Some (String c rest) => String c rest
            | _ => match sysTZ with
                   | String c rest => String c rest
                   | EmptyString => "UTC"%string
                   end
            end in
  let S1 := initDateBounds (attrInput (attr_minDate attrs))
                           (attrInput (attr_maxDate attrs)) now (with_timeZone S tz) in
  let S2 := with_dates S1 (dateMin S1) (dateMax S1) in
  let S3 := match parseInt10 (match attr_timeStep attrs with
                              | Some s => s | None => "15"%string end) with
            | Some ts => with_timeStep S2 (Z.max 1 ts)
            | None => S2
            end in
  match parseInt10 (match attr_dateStepDays attrs with
                    | Some s => s | None => "1"%string end) with
  | Some ds => with_dateStepDays S3 (Z.max 1 ds)
  | None => S3
  end.

(** *** Tick builders, continued *)

Definition DATE_TICK_TARGET : Z := 7.
Definition TIME_TICK_TARGET : Z := 8.

Definition timeTickCandidates : list Z := [15; 30; 60; 120; 180; 240].

(** [#chooseTimeTickStep]: the loop of [#chooseDateTickStep] over the time
    candidates, with 1440 minutes in place of the day count. *)
Definition chooseTimeTickStep (target : Z) : Z :=
  let c0 := nth 0 timeTickCandidates 0 in
  fst (fold_left (keepCloser 1440 target) timeTickCandidates
                 (c0, tickDiff 1440 target c0)).

Definition isMonthStart (d : JSDate) : bool := getDate d =? 1.

Definition formatDateTickLabel (d : JSDate) (stepDays : Z) : string :=
  let y := String_of (getFullYear d) in
  let m := pad2 (getMonth d + 1) in
  let day := pad2 (getDate d) in
  if stepDays >=? 90 then (y ++ "-" ++ m)%string
  else if stepDays >=? 30 then (y ++ "-" ++ m)%string
  else (m ++ "-" ++ day)%string.

(** The tick [#buildDateTicks] draws for index [i]. *)
Definition dateTick (minD : JSDate) (totalDays stepDays i : Z) : Tick :=
  let d := setDate minD (getDate minD + i) in
  mkTick i (JS.div i totalDays)
         ((stepDays >=? 30) || isMonthStart d)
         (Some (formatDateTickLabel d stepDays)).

(** The loop of [#buildDateTicks] from index [i] on, run for at most [fuel]
    rounds. *)
Fixpoint dateTicksFrom (fuel : nat) (i totalDays stepDays : Z) (minD : JSDate) : list Tick :=
  match fuel with
  | O => []
  | S fuel' =>
      if i <=? totalDays then
        dateTick minD totalDays stepDays i
        :: dateTicksFrom fuel' (i + stepDays) totalDays stepDays minD
      else []
  end.

(** The ticks [#buildDateTicks] draws; the step is at least 1, so
    [totalDays + 1] rounds are enough. *)
Definition buildDateTicks (S : State) : list Tick :=
  let totalDays := Z.max 1 (dateMax S - dateMin S) in
  let stepDays := chooseDateTickStep totalDays DATE_TICK_TARGET in
  dateTicksFrom (Z.to_nat totalDays + 1) 0 totalDays stepDays (minDate S).

(** The tick [#buildTimeTicks] draws for minute [m]; it is labelled when it
    is strong or falls on every second step. *)
Definition timeTick (stepMins m : Z) : Tick :=
  let isStrong := JS.rem m 60 =? 0 in
  mkTick m (JS.div m (1440 - 1)) isStrong
         (if isStrong || (JS.rem m (stepMins * 2) =? 0)
          then Some (pad2 (Math_floor (JS.div m 60)) ++ ":" ++ pad2 (JS.rem m 60))%string
          else None).

(** The loop of [#buildTimeTicks] from minute [m] on, run for at most
    [fuel] rounds. *)
Fixpoint timeTicksFrom (fuel : nat) (m stepMins : Z) : list Tick :=
  match fuel with
  | O => []
  | S fuel' =>
      if m <? 1440 then timeTick stepMins m :: timeTicksFrom fuel' (m + stepMins) stepMins
      else []
  end.

Definition buildTimeTicks : list Tick :=
  timeTicksFrom 1440 0 (chooseTimeTickStep TIME_TICK_TARGET).

(** *** Connecting *)

Definition noAttrs : Attrs := mkAttrs None None None None None.

(** The state when [connectedCallback] has run [#initDefaults]: the
    [#state] literal, then the attribute changes that arrived before the
    template was attached (each a name, an old and a new value), then the
    defaults read from the attributes [attrs].  The literal's null dates
    stand as day 0 until [#initDateBounds] sets them. *)
Definition stateAtConnect (early : list (AttrName * option string * option string))
    (attrs : Attrs) (sysTZ : string) (now : JSDate) : State :=
  initDefaults attrs sysTZ now
    (fold_left
       (fun S c => fst (attributeChangedCallback false noAttrs (fst (fst c))
                          (snd (fst c)) (snd c) now S))
       early (initialState 0 0)).

(** *** The zone field *)

(** [#isValidTimeZone]: whether the formatter accepts the zone, tried at
    the current instant [nowMs]. *)
Definition isValidTimeZone (tz : string) (nowMs : Z) : bool :=
  match formatToParts tz nowMs with Some _ => true | None => false end.

Definition commitTZ (tz : string) (kind : EventType) (S : State) : State * Outcome :=
  let S1 := with_timeZone S tz in
  (S1, andThen (renderTZ S1) (dispatch kind S1)).

(** [onTZInput] and [onTZChange], given the trimmed text [val] of the
    field. *)
Definition onTZInput (val : string) (nowMs : Z) (S : State) : State * Outcome :=
  match val with
  | EmptyString => (S, Some [])
  | _ => if isValidTimeZone val nowMs then commitTZ val input S else (S, Some [])
  end.

Definition onTZChange (val : string) (nowMs : Z) (S : State) : State * Outcome :=
  match val with
  | EmptyString => (S, andThen (renderTZ S) (dispatch change S))
  | _ => if isValidTimeZone val nowMs then commitTZ val change S
         else (S, andThen (renderTZ S) (dispatch change S))
  end.

(** *** Everything that can happen to a connected component *)

Inductive Action : Type :=
| SetDateRange (vstart vend : DateInput)
| SetTimeRange (startMinutes endMinutes : Q)
| SetTimeZone (v : string)
| DateStartInput (value : string)
| DateEndInput (value : string)
| DateThumb (startValue endValue : Q)
| TimeStartInput (value : string)
| TimeEndInput (value : string)
| TimeThumb (startValue endValue : Q)
| TZInput (val : string) (nowMs : Z)
| TZChange (val : string) (nowMs : Z)
| TrackGesture (isDate : bool) (rectWidth : Q) (moves : list (Q * Q))
               (rectLeft width clientX : Q)
| AttributeChanged (attrs : Attrs) (name : AttrName) (oldVal newVal : option string)
                   (now : JSDate).

(** The state an action leaves behind. *)
Definition act (a : Action) (S : State) : State :=
  match a with
  | SetDateRange vstart vend => fst (set_dateRange vstart vend S)
  | SetTimeRange s e => fst (set_timeRange s e S)
  | SetTimeZone v => fst (set_timeZone v S)
  | DateStartInput value => fst (onDateStartInput value S)
  | DateEndInput value => fst (onDateEndInput value S)
  | DateThumb s e => fst (onDateThumb s e S)
  | TimeStartInput value => fst (onTimeStartInput value S)
  | TimeEndInput value => fst (onTimeEndInput value S)
  | TimeThumb s e => fst (onTimeThumb s e S)
  | TZInput val nowMs => fst (onTZInput val nowMs S)
  | TZChange val nowMs => fst (onTZChange val nowMs S)
  | TrackGesture isDate rectWidth moves rectLeft width clientX =>
      runGesture isDate rectWidth moves rectLeft width clientX S
  | AttributeChanged attrs name oldVal newVal now =>
      fst (attributeChangedCallback true attrs name oldVal newVal now S)
  end.

End Picker.

(** The formatter of a platform that knows the zone "UTC" only. *)
Definition utcOnlyFormat (tz : string) (t : Z) : option DateParts :=
  if String.eqb tz "UTC" then Some (utcParts t) else None.

(** *** Sample platforms and states *)

(** A host on UTC all year. *)
Definition utcHost (n : Z) : Z := 0.

(** A host one hour east of UTC with a summer hour, switching on fixed days
    of a 365-day cycle. *)
Definition summerTimeHost (n : Z) : Z :=
  if (90 <=? n mod 365) && (n mod 365 <? 300) then 7200000 else 3600000.

(** The component configured with min-date 2026-02-01, max-date 2026-02-28
    and the defaults otherwise, the whole span selected. *)
Definition februaryState : State :=
  mkState (newDate 2026 1 1) (newDate 2026 1 28) 0 27 0 27 1
          0 1439 1320 360 15 "UTC".

(** The same component after its attributes are changed to
    min-date 0100-01-00 and max-date 0100-01-02, on a host on UTC: the
    [Date] constructor reads the minimum as 31 December of the year 99. *)
Definition year99State : State :=
  initDateBounds utcHost (VString "0100-01-00") (VString "0100-01-02")
                 (newDate 2026 10 3) februaryState.

(** The formatter of a zone that is [k] minutes east of UTC all year. *)
Definition fixedOffsetFormat (k : Z) (tz : string) (t : Z) : option DateParts :=
  Some (utcParts (t + k * 60000)).

(** *** Predicates on states *)

(** A date selection that is ordered, within the bounds and on the step
    grid. *)
Definition dateSelectionValid (S : State) : Prop :=
  dateMin S <= dateStart S /\ dateStart S <= dateEnd S /\ dateEnd S <= dateMax S
  /\ (dateStepDays S | dateStart S) /\ (dateStepDays S | dateEnd S).

(** Both ends of the time selection are minutes of a day. *)
Definition timeSelectionInDay (S : State) : Prop :=
  0 <= timeStart S <= 1439 /\ 0 <= timeEnd S <= 1439.

Definition timeSelectionAligned (S : State) : Prop :=
  (timeStep S | timeStart S) /\ (timeStep S | timeEnd S).

(** What a date gesture in progress keeps: its snapshot was taken from a
    valid selection under the bounds and step the state still has. *)
Definition dateGestureValid (g : Gesture) (S : State) : Prop :=
  g_isDate g = true
  /\ sn_min (g_init g) = dateMin S /\ sn_max (g_init g) = dateMax S
  /\ sn_step (g_init g) = dateStepDays S
  /\ sn_min (g_init g) <= sn_a (g_init g) /\ sn_a (g_init g) <= sn_b (g_init g)
  /\ sn_b (g_init g) <= sn_max (g_init g)
  /\ (sn_step (g_init g) | sn_a (g_init g)) /\ (sn_step (g_init g) | sn_b (g_init g))
  /\ dateSelectionValid S.

(** What a time gesture in progress keeps: once it has become a drag, the
    selection lies within the day. *)
Definition timeGestureValid (g : Gesture) (S : State) : Prop :=
  g_isDate g = false /\ (g_dragged g = true -> timeSelectionInDay S).

(** A time gesture whose snapshot and live selection are on the step grid. *)
Definition timeGestureAligned (g : Gesture) (S : State) : Prop :=
  sn_step (g_init g) = timeStep S
  /\ (sn_step (g_init g) | sn_a (g_init g)) /\ (sn_step (g_init g) | sn_b (g_init g))
  /\ timeSelectionAligned S.

(** *** Checks run over finite ranges *)

Definition same_result (a b : option Z) : bool :=
  match a, b with
  | Some x, Some y => x =? y
  | None, None => true
  | _, _ => false
  end.

(** The time text of minute [m] parses back to [m] within the day and is
    rejected from 1440 on. *)
Definition time_text_checked (m : Z) : bool :=
  same_result (parseTime (fmtHHMMSS m)) (if m <=? 1439 then Some m else None).

(** The label text of a tick at minute [m] parses back to [m]. *)
Definition tick_label_checked (m : Z) : bool :=
  same_result
    (parseTime (pad2 (Math_floor (JS.div m 60)) ++ ":" ++ pad2 (JS.rem m 60))%string)
    (Some m).

(** [String(y)] is four digits that read as [y]. *)
Definition four_digits_checked (y : Z) : bool :=
  match String_of y with
  | String a (String b (String c (String d EmptyString))) =>
      forallb is_digit [a; b; c; d] && (Number_of_digits [a; b; c; d] =? y)
  | _ => false
  end.

(** [String(n).padStart(2, '0')] is two digits that read as [n]. *)
Definition two_digits_checked (n : Z) : bool :=
  match pad2 n with
  | String a (String b EmptyString) =>
      is_digit a && is_digit b && (Number_of_digits [a; b] =? n)
  | _ => false
  end.

(** The values i, i + step, i + 2 step, ... that do not exceed [hi]. *)
Definition stepsUpTo (i step hi : Z) : list Z :=
  map (fun k => i + Z.of_nat k * step)
      (seq 0 (Z.to_nat (if i <=? hi then (hi - i) / step + 1 else 0))).

(** What holds of every tick of the time track. *)
Definition timeTickSound (t : Tick) : Prop :=
  0 <= tick_at t <= 1439
  /\ (tick_pct t == inject_Z (tick_at t) / 1439)%Q
  /\ (0 <= tick_pct t <= 1)%Q
  /\ (tick_strong t = true <-> (60 | tick_at t))
  /\ (tick_strong t = true -> tick_label t <> None)
  /\ (forall text, tick_label t = Some text -> parseTime text = Some (tick_at t)).

(** The part of the state no selection touches: the fixed bounds, steps of
    at least 1, and a zone that is not empty. *)
Definition frameInv (S : State) : Prop :=
  dateMin S = 0 /\ timeMin S = 0 /\ timeMax S = 1439
  /\ 1 <= dateStepDays S /\ 1 <= timeStep S
  /\ timeZone S <> EmptyString.

(** What every state of a connected component satisfies: the frame, a date
    selection that is ordered and not negative, and times that are not
    negative. *)
Definition stateInv (S : State) : Prop :=
  frameInv S
  /\ (0 <= dateStart S /\ dateStart S <= dateEnd S)
  /\ (0 <= timeStart S /\ 0 <= timeEnd S).

(** What a date gesture in progress keeps when the selection may lie beyond
    dateMax. *)
Definition dateGestureInv (g : Gesture) (S : State) : Prop :=
  g_isDate g = true
  /\ sn_min (g_init g) = 0 /\ 1 <= sn_step (g_init g)
  /\ 0 <= sn_a (g_init g) /\ sn_a (g_init g) <= sn_b (g_init g)
  /\ stateInv S.

(** What a time gesture in progress keeps. *)
Definition timeGestureInv (g : Gesture) (S : State) : Prop :=
  g_isDate g = false /\ stateInv S.

(** ** Facts about the number model *)

Lemma div_as_fraction (n : Z) (d : positive) : (JS.div n (Zpos d) == n # d)%Q.
Proof.
  unfold JS.div, Qdiv, Qinv, Qmult, inject_Z, Qeq; simpl.
  rewrite Z.mul_1_r. lia.
Qed.

Lemma Math_floor_div (n d : Z) : 0 < d -> Math_floor (JS.div n d) = n / d.
Proof.
  intros Hd. destruct d as [|p|p]; try lia.
  unfold Math_floor. rewrite div_as_fraction. reflexivity.
Qed.

Lemma Math_ceil_div (n d : Z) : 0 < d -> Math_ceil (JS.div n d) = - ((- n) / d).
Proof.
  intros Hd. destruct d as [|p|p]; try lia.
  unfold Math_ceil, Qceiling. rewrite div_as_fraction. reflexivity.
Qed.

Lemma Math_round_div (n d : Z) : 0 < d -> Math_round (JS.div n d) = (2 * n + d) / (2 * d).
Proof.
  intros Hd. destruct d as [|p|p]; try lia.
  unfold Math_round.
  assert (E : (JS.div n (Zpos p) + (1 # 2) == (2 * n + Zpos p) # (2 * p))%Q).
  { rewrite div_as_fraction. unfold Qplus, Qeq; cbn [Qnum Qden].
    rewrite !Pos2Z.inj_mul. lia. }
  rewrite E. reflexivity.
Qed.

Lemma snapToStep_eq (v step : Z) :
  0 < step -> snapToStep v step = (2 * v + step) / (2 * step) * step.
Proof. intros H. unfold snapToStep. now rewrite Math_round_div. Qed.

(** The snapped value is a multiple of the step at most half a step away. *)
Lemma snapToStep_near (v step : Z) :
  0 < step ->
  (step | snapToStep v step) /\ 2 * v - step < 2 * snapToStep v step <= 2 * v + step.
Proof.
  intros H. rewrite snapToStep_eq by assumption. split.
  - apply Z.divide_factor_r.
  - pose proof (Z.div_mod (2 * v + step) (2 * step) ltac:(lia)) as E.
    pose proof (Z.mod_pos_bound (2 * v + step) (2 * step) ltac:(lia)) as B.
    lia.
Qed.

Lemma snapToStep_mono (v w step : Z) :
  0 < step -> v <= w -> snapToStep v step <= snapToStep w step.
Proof.
  intros H Hvw. rewrite !snapToStep_eq by assumption.
  apply Z.mul_le_mono_nonneg_r; [lia|].
  apply Z.div_le_mono; lia.
Qed.

Lemma snapToStep_nonneg (v step : Z) : 0 < step -> 0 <= v -> 0 <= snapToStep v step.
Proof.
  intros H Hv. rewrite snapToStep_eq by assumption.
  apply Z.mul_nonneg_nonneg; [|lia].
  apply Z.div_pos; lia.
Qed.

Lemma snapToStep_step1 (v : Z) : snapToStep v 1 = v.
Proof.
  rewrite snapToStep_eq by lia.
  replace (2 * v + 1) with (1 + v * (2 * 1)) by lia.
  rewrite Z.div_add by lia. simpl. lia.
Qed.

Lemma snapToStep_multiple (k step : Z) : 0 < step -> snapToStep (k * step) step = k * step.
Proof.
  intros H. rewrite snapToStep_eq by assumption. f_equal.
  pose proof (Z.div_mod (2 * (k * step) + step) (2 * step) ltac:(lia)) as E.
  pose proof (Z.mod_pos_bound (2 * (k * step) + step) (2 * step) ltac:(lia)) as B.
  nia.
Qed.

Lemma clamp_range (lo hi v : Z) : lo <= hi -> lo <= clamp lo hi v <= hi.
Proof. unfold clamp. lia. Qed.

Lemma clamp_id (lo hi v : Z) : lo <= v <= hi -> clamp lo hi v = v.
Proof. unfold clamp. lia. Qed.

(** The integer [%] idiom of the source computes the least non-negative
    residue. *)
Lemma wrap_mod (v : Z) : wrap v = v mod 1440.
Proof.
  unfold wrap, JS.rem. Z.quot_rem_to_equations. Z.div_mod_to_equations. lia.
Qed.

(** ** Facts about the calendar *)

Lemma DayFromYear_next (y : Z) : DayFromYear (y + 1) = DayFromYear y + DaysInYear y.
Proof.
  unfold DayFromYear, DaysInYear.
  destruct (Z.eqb_spec (y mod 4) 0), (Z.eqb_spec (y mod 100) 0),
           (Z.eqb_spec (y mod 400) 0); cbn [negb];
    Z.div_mod_to_equations; lia.
Qed.

Lemma DaysInYear_range (y : Z) : 365 <= DaysInYear y <= 366.
Proof.
  unfold DaysInYear.
  destruct (negb _); [lia|]. destruct (negb _); [lia|]. destruct (negb _); lia.
Qed.

Lemma InLeapYear_days (y : Z) : DaysInYear y = 365 + InLeapYear y.
Proof.
  unfold InLeapYear. pose proof (DaysInYear_range y).
  destruct (Z.eqb_spec (DaysInYear y) 366); lia.
Qed.

Lemma DayFromYear_mono (y y' : Z) : y <= y' -> DayFromYear y <= DayFromYear y'.
Proof. intros H. unfold DayFromYear. Z.div_mod_to_equations. lia. Qed.

Lemma DayFromYear_lt (y y' : Z) : DayFromYear y < DayFromYear y' -> y < y'.
Proof.
  intros H. destruct (Z.lt_ge_cases y y') as [|Hge]; [assumption|].
  pose proof (DayFromYear_mono y' y Hge). lia.
Qed.

(** [YearFromDay n] is the year that contains day [n]. *)
Lemma YearFromDay_spec (n : Z) :
  DayFromYear (YearFromDay n) <= n < DayFromYear (YearFromDay n + 1).
Proof.
  unfold YearFromDay.
  set (y0 := 1970 + 400 * n / 146097).
  assert (Hy : 146097 * (y0 - 1970) <= 400 * n < 146097 * (y0 - 1970) + 146097).
  { unfold y0. pose proof (Z.div_mod (400 * n) 146097 ltac:(lia)).
    pose proof (Z.mod_pos_bound (400 * n) 146097 ltac:(lia)). lia. }
  clearbody y0.
  destruct (Z.ltb_spec n (DayFromYear y0));
    [|destruct (Z.leb_spec (DayFromYear (y0 + 1)) n)].
  - replace (y0 - 1 + 1) with y0 by lia. split; [|lia].
    unfold DayFromYear in *. Z.div_mod_to_equations. lia.
  - split; [lia|]. unfold DayFromYear in *. Z.div_mod_to_equations. lia.
  - lia.
Qed.

Lemma YearFromDay_unique (n y : Z) :
  DayFromYear y <= n < DayFromYear (y + 1) -> YearFromDay n = y.
Proof.
  intros H. pose proof (YearFromDay_spec n) as S.
  assert (YearFromDay n < y + 1) by (apply DayFromYear_lt; lia).
  assert (y < YearFromDay n + 1) by (apply DayFromYear_lt; lia).
  lia.
Qed.

Lemma YearFromDay_mono (n n' : Z) : n <= n' -> YearFromDay n <= YearFromDay n'.
Proof.
  intros H. pose proof (YearFromDay_spec n). pose proof (YearFromDay_spec n').
  assert (YearFromDay n < YearFromDay n' + 1) by (apply DayFromYear_lt; lia).
  lia.
Qed.

Lemma DayWithinYear_range (n : Z) :
  0 <= DayWithinYear n < 365 + InLeapYear (YearFromDay n).
Proof.
  unfold DayWithinYear. pose proof (YearFromDay_spec n) as S.
  rewrite DayFromYear_next, InLeapYear_days in S. lia.
Qed.

Lemma InLeapYear_01 (y : Z) : InLeapYear y = 0 \/ InLeapYear y = 1.
Proof. unfold InLeapYear. destruct (_ =? _); auto. Qed.

Ltac month_cases :=
  unfold MonthFromDay;
  repeat match goal with
         | |- context [?a <? ?b] => destruct (Z.ltb_spec a b)
         end.

Lemma MonthFromDay_range (n : Z) : 0 <= MonthFromDay n <= 11.
Proof. month_cases; lia. Qed.

Lemma DateFromDay_range (n : Z) : 1 <= DateFromDay n <= 31.
Proof.
  unfold DateFromDay.
  pose proof (DayWithinYear_range n) as R.
  pose proof (InLeapYear_01 (YearFromDay n)) as L.
  month_cases; cbn [MonthStart]; lia.
Qed.

(** Rebuilding a day from its own calendar fields gives the day back. *)
Lemma MakeDay_fields (n : Z) :
  MakeDay (YearFromDay n) (MonthFromDay n) (DateFromDay n) = n.
Proof.
  pose proof (MonthFromDay_range n) as R.
  unfold MakeDay, DateFromDay, DayWithinYear.
  rewrite Z.div_small, Z.mod_small, Z.add_0_r by lia. lia.
Qed.

Lemma setDate_shift (d k : Z) : setDate d k = d + (k - getDate d).
Proof.
  pose proof (MakeDay_fields d) as F. pose proof (MonthFromDay_range d) as R.
  unfold setDate, getDate, MakeDay in *.
  rewrite Z.div_small, Z.mod_small, Z.add_0_r in * by lia. lia.
Qed.

Lemma newDate_fields (d : JSDate) :
  two_digit_year (getFullYear d) = false ->
  newDate (getFullYear d) (getMonth d) (getDate d) = d.
Proof.
  intros H. unfold newDate, MakeFullYear. rewrite H. apply MakeDay_fields.
Qed.

Lemma idxToDate_shift (S : State) (idx : Z) : idxToDate S idx = minDate S + idx.
Proof. unfold idxToDate. rewrite setDate_shift. lia. Qed.

(** ** Day indexes *)

Section HostZone.

(** The host zone: its UTC offset, in milliseconds, in effect at local
    midnight of local day [n]. *)
Variable hostOffsetMs : Z -> Z.

(** The host's offset varies by less than half a day between any two local
    midnights (daylight saving shifts it by an hour or so). *)
Hypothesis hostOffset_steady :
  forall m n, 2 * Z.abs (hostOffsetMs m - hostOffsetMs n) < msPerDay.

Lemma getTime_le_iff (a b : JSDate) : getTime hostOffsetMs a <= getTime hostOffsetMs b <-> a <= b.
Proof using hostOffset_steady.
  unfold getTime. pose proof (hostOffset_steady a b) as H.
  unfold msPerDay in *. split; intros L.
  - destruct (Z.le_gt_cases a b); [assumption|]. lia.
  - destruct (Z.eq_dec a b) as [->|]; lia.
Qed.

(** On dates outside the two-digit years, [#daysBetween] is the difference
    of the day numbers, whatever the host's daylight saving does. *)
Lemma daysBetween_days (a b : JSDate) :
  two_digit_year (getFullYear a) = false ->
  two_digit_year (getFullYear b) = false ->
  daysBetween hostOffsetMs a b = b - a.
Proof using hostOffset_steady.
  intros Ha Hb. unfold daysBetween.
  rewrite !newDate_fields by assumption.
  rewrite Math_round_div by reflexivity.
  unfold getTime. pose proof (hostOffset_steady a b) as H.
  unfold msPerDay in *. Z.div_mod_to_equations. lia.
Qed.

Lemma late_year_not_two_digit (a d : JSDate) :
  100 <= getFullYear a -> a <= d -> two_digit_year (getFullYear d) = false.
Proof.
  intros Ha Hd. pose proof (YearFromDay_mono a d Hd).
  unfold two_digit_year, getFullYear in *. lia.
Qed.

(** C6, as amended: date indexing round-trips exactly on every date whose
    calendar year lies outside 0..99, in both directions, and for such
    bounds with minDate not after maxDate the day count
    [daysBetween minDate maxDate] is the difference of the two days, hence
    not negative.  Every date from the year 100 on qualifies. *)
Theorem C6_index_round_trip_outside_two_digit_years (S : State) :
  two_digit_year (getFullYear (minDate S)) = false ->
  (forall d, two_digit_year (getFullYear d) = false ->
     idxToDate S (dateToIdx hostOffsetMs S d) = d)
  /\ (forall idx, two_digit_year (getFullYear (idxToDate S idx)) = false ->
       dateToIdx hostOffsetMs S (idxToDate S idx) = idx)
  /\ (forall maxD, two_digit_year (getFullYear maxD) = false ->
       getTime hostOffsetMs (minDate S) <= getTime hostOffsetMs maxD ->
       0 <= daysBetween hostOffsetMs (minDate S) maxD
       /\ daysBetween hostOffsetMs (minDate S) maxD = maxD - minDate S)
  /\ (100 <= getFullYear (minDate S) ->
      forall idx, 0 <= idx ->
        two_digit_year (getFullYear (idxToDate S idx)) = false).
Proof using hostOffset_steady.
  intros Hmin. split; [|split; [|split]].
  - intros d Hd. rewrite idxToDate_shift. unfold dateToIdx.
    rewrite daysBetween_days by assumption. lia.
  - intros idx Hi. unfold dateToIdx.
    rewrite daysBetween_days by assumption. rewrite idxToDate_shift. lia.
  - intros maxD Hmax Hle. rewrite daysBetween_days by assumption.
    apply (proj1 (getTime_le_iff _ _)) in Hle. lia.
  - intros Hy idx Hi. apply late_year_not_two_digit with (a := minDate S); [assumption|].
    rewrite idxToDate_shift. lia.
Qed.

(** ** Date bounds *)




(** With both attributes parsed and in order, the parsed dates are kept. *)
Lemma initDateBounds_given (attrMin attrMax : DateInput) (now : JSDate) (S : State)
    (a b : JSDate) :
  coerceDateOnly attrMin = Some a -> coerceDateOnly attrMax = Some b ->
  getTime hostOffsetMs a <= getTime hostOffsetMs b ->
  initDateBounds hostOffsetMs attrMin attrMax now S
  = with_bounds S a b 0 (daysBetween hostOffsetMs a b).
Proof.
  intros Ha Hb Hle. unfold initDateBounds. rewrite Ha, Hb.
  destruct (Z.gtb_spec (getTime hostOffsetMs a) (getTime hostOffsetMs b)); [lia | reflexivity].
Qed.

End HostZone.

(** ** Clamping and snapping *)

(** What [#clampAndSyncDates] does establish: order, the lower bound, step
    alignment, and an upper bound that is half a step too wide unless the
    step divides dateMax. *)
Lemma clampAndSyncDates_established (S : State) :
  dateMin S = 0 -> 0 <= dateMax S -> 1 <= dateStepDays S ->
  let S' := clampAndSyncDates S in
  dateMin S <= dateStart S' <= dateEnd S'
  /\ (dateStepDays S | dateStart S') /\ (dateStepDays S | dateEnd S')
  /\ 2 * dateEnd S' <= 2 * dateMax S + dateStepDays S
  /\ ((dateStepDays S | dateMax S) -> dateEnd S' <= dateMax S).
Proof.
  intros Hmin Hmax Hstep S'. subst S'. unfold clampAndSyncDates.
  set (s := snapToStep (clamp (dateMin S) (dateMax S) (dateStart S)) (dateStepDays S)).
  set (e := snapToStep (clamp (dateMin S) (dateMax S) (dateEnd S)) (dateStepDays S)).
  pose proof (clamp_range (dateMin S) (dateMax S) (dateStart S) ltac:(lia)) as Cs.
  pose proof (clamp_range (dateMin S) (dateMax S) (dateEnd S) ltac:(lia)) as Ce.
  pose proof (snapToStep_near (clamp (dateMin S) (dateMax S) (dateStart S))
                (dateStepDays S) ltac:(lia)) as [Ds Ns].
  pose proof (snapToStep_near (clamp (dateMin S) (dateMax S) (dateEnd S))
                (dateStepDays S) ltac:(lia)) as [De Ne].
  pose proof (snapToStep_nonneg (clamp (dateMin S) (dateMax S) (dateStart S))
                (dateStepDays S) ltac:(lia) ltac:(lia)) as Ps.
  pose proof (snapToStep_nonneg (clamp (dateMin S) (dateMax S) (dateEnd S))
                (dateStepDays S) ltac:(lia) ltac:(lia)) as Pe.
  assert (Top : forall v, v <= dateMax S -> (dateStepDays S | dateMax S) ->
                          snapToStep v (dateStepDays S) <= dateMax S).
  { intros v Hv [k Hk].
    pose proof (snapToStep_mono v (dateMax S) (dateStepDays S) ltac:(lia) Hv) as M.
    pose proof (snapToStep_multiple k (dateStepDays S) ltac:(lia)) as Fix.
    rewrite <- Hk in Fix. lia. }
  fold s e in Ds, Ns, De, Ne, Ps, Pe.
  destruct (Z.gtb_spec s e); cbn [with_dates dateStart dateEnd];
    (split; [lia|]); (split; [assumption|]); (split; [assumption|]);
    (split; [lia|]); intros Hd.
  - apply Top; [lia | assumption].
  - apply Top; [lia | assumption].
Qed.

(** What [#clampAndSyncTimes] does establish. *)
Lemma clampAndSyncTimes_established (S : State) :
  timeMin S = 0 -> timeMax S = 1439 -> 1 <= timeStep S ->
  let S' := clampAndSyncTimes S in
  0 <= timeStart S' /\ 0 <= timeEnd S'
  /\ (timeStep S | timeStart S') /\ (timeStep S | timeEnd S')
  /\ 2 * timeStart S' <= 2 * 1439 + timeStep S
  /\ 2 * timeEnd S' <= 2 * 1439 + timeStep S
  /\ timeStart S' = snapToStep (clamp 0 1439 (timeStart S)) (timeStep S)
  /\ timeEnd S' = snapToStep (clamp 0 1439 (timeEnd S)) (timeStep S).
Proof.
  intros Hmin Hmax Hstep S'. subst S'. unfold clampAndSyncTimes.
  cbn [with_times timeStart timeEnd]. rewrite Hmin, Hmax.
  pose proof (clamp_range 0 1439 (timeStart S) ltac:(lia)) as Cs.
  pose proof (clamp_range 0 1439 (timeEnd S) ltac:(lia)) as Ce.
  pose proof (snapToStep_near (clamp 0 1439 (timeStart S)) (timeStep S) ltac:(lia)) as [Ds Ns].
  pose proof (snapToStep_near (clamp 0 1439 (timeEnd S)) (timeStep S) ltac:(lia)) as [De Ne].
  pose proof (snapToStep_nonneg (clamp 0 1439 (timeStart S)) (timeStep S)
                ltac:(lia) ltac:(lia)) as Ps.
  pose proof (snapToStep_nonneg (clamp 0 1439 (timeEnd S)) (timeStep S)
                ltac:(lia) ltac:(lia)) as Pe.
  repeat split; try assumption; lia.
Qed.

(** C1, at the inputs where the code leaves the range: with the default
    timeStep = 15, a time selection ending at 1439 is clamped to 1439 and
    then snapped up to 1440, above timeMax = 1439; with dateMax = 10 and
    dateStepDays = 4, a date selection ending at 10 is snapped up to 12,
    above dateMax. *)
Theorem C1_snap_after_clamp_leaves_range :
  let T := with_times (initialState 0 0) 0 1439 in
  let D := mkState 0 10 0 10 0 10 4 0 1439 1320 360 15 "UTC" in
  (timeMin T = 0 /\ timeMax T = 1439 /\ timeStep T = 15
   /\ timeEnd (clampAndSyncTimes T) = 1440)
  /\ (dateMin D = 0 /\ dateMax D = 10 /\ dateStepDays D = 4
      /\ dateEnd (clampAndSyncDates D) = 12).
Proof. vm_compute. repeat split. Qed.

(** ** Track gestures *)

Lemma minShiftStep_bounds (lo a step : Z) :
  1 <= step -> lo <= a -> lo - a <= minShiftStep lo a step <= 0.
Proof.
  intros Hs Ha. unfold minShiftStep. rewrite Math_ceil_div by lia.
  pose proof (Z.div_mod (- (lo - a)) step ltac:(lia)) as E.
  pose proof (Z.mod_pos_bound (- (lo - a)) step ltac:(lia)) as B.
  assert (0 <= - (lo - a) / step) by (apply Z.div_pos; lia).
  nia.
Qed.

Lemma maxShiftStep_bounds (hi b step : Z) :
  1 <= step -> b <= hi -> 0 <= maxShiftStep hi b step <= hi - b.
Proof.
  intros Hs Hb. unfold maxShiftStep. rewrite Math_floor_div by lia.
  pose proof (Z.div_mod (hi - b) step ltac:(lia)) as E.
  pose proof (Z.mod_pos_bound (hi - b) step ltac:(lia)) as B.
  assert (0 <= (hi - b) / step) by (apply Z.div_pos; lia).
  nia.
Qed.

(** The clamped shift of a selection that lies within its bounds. *)
Lemma clampShift_bounds (lo hi a b step shift : Z) :
  1 <= step -> lo <= a -> b <= hi ->
  minShiftStep lo a step <= clampShift lo hi a b step shift <= maxShiftStep hi b step
  /\ lo - a <= clampShift lo hi a b step shift <= hi - b
  /\ (shift = 0 -> clampShift lo hi a b step shift = 0).
Proof.
  intros Hs Ha Hb.
  pose proof (minShiftStep_bounds lo a step Hs Ha).
  pose proof (maxShiftStep_bounds hi b step Hs Hb).
  unfold clampShift. lia.
Qed.

(** Shifting both ends by the same whole amount and wrapping keeps the
    width modulo 1440. *)
Lemma wrap_shift_width (a b shift : Z) :
  (wrap (b + shift) - wrap (a + shift)) mod 1440 = (b - a) mod 1440.
Proof. rewrite !wrap_mod. Z.div_mod_to_equations. lia. Qed.

Section Handlers.

(** The platform's zone-aware formatter; [None] when it rejects the zone. *)
Variable formatToParts : string -> Z -> option DateParts.


(** C3: a move of the time track applies the step-rounded shift with no
    clamping: the selection becomes (wrap(a + s), wrap(b + s)), where
    wrap(x) = ((x % 1440) + 1440) % 1440 is the residue of x in [0, 1440);
    shifting (1320, 360) by 120 gives (0, 480), which does not cross
    midnight. *)
Theorem C3_time_drag_wraps (g : Gesture) (dx dy : Q) (S : State) :
  let init := g_init g in
  g_isDate g = false ->
  1 <= sn_step init ->
  let ratio := if Qeq_bool (g_width g) 0 then 0%Q else (dx / g_width g)%Q in
  let s := steppedShift ratio (sn_span init + 1) (sn_step init) in
  let result := onPointerMove formatToParts g dx dy S in
  let g' := fst (fst result) in
  let S' := snd (fst result) in
  (forall x, wrap x = Z.rem (Z.rem x 1440 + 1440) 1440 /\ wrap x = x mod 1440)
  /\ (g_dragged g' = false -> S' = S)
  /\ (g_dragged g' = true ->
      timeStart S' = wrap (sn_a init + s) /\ timeEnd S' = wrap (sn_b init + s))
  /\ (g_dragged g' = true -> sn_a init = 1320 -> sn_b init = 360 -> s = 120 ->
      timeStart S' = 0 /\ timeEnd S' = 480
      /\ crossesMidnight (timeStart S') (timeEnd S') = false
      /\ snd (get_timeRange S') = false).
Proof.
  intros init Hd Hs ratio s result g' S'.
  subst result g' S'. unfold onPointerMove. rewrite Hd.
  split; [intros x; split; [reflexivity | apply wrap_mod]|].
  destruct (g_dragged g || Qlt_bool 36 (dx * dx + dy * dy)) eqn:D;
    cbn [negb fst snd g_dragged with_times timeStart timeEnd];
    fold init ratio s.
  - split; [discriminate|]. split; [intros _; split; reflexivity|].
    intros _ Ea Eb Es. unfold get_timeRange.
    cbn [with_times timeStart timeEnd snd]. rewrite Ea, Eb, Es. repeat split.
  - split; [reflexivity|]. split; discriminate.
Qed.

Lemma onPointerMove_width (g : Gesture) (dx dy : Q) (S : State) :
  sameWidth g S ->
  let result := onPointerMove formatToParts g dx dy S in
  let g' := fst (fst result) in
  let S' := snd (fst result) in
  g_isDate g' = g_isDate g /\ sameWidth g' S'
  /\ dateEnd S' - dateStart S' = dateEnd S - dateStart S
  /\ timeWidth S' = timeWidth S.
Proof.
  unfold sameWidth, onPointerMove, timeWidth.
  destruct (g_dragged g || Qlt_bool 36 (dx * dx + dy * dy)); cbn [negb].
  - destruct (g_isDate g) eqn:K;
      cbn [fst snd g_isDate g_init with_dates with_times
           dateStart dateEnd timeStart timeEnd]; rewrite ?K; intros W.
    + repeat split; lia.
    + rewrite wrap_shift_width. repeat split; assumption.
  - cbn [fst snd g_isDate g_init]. intros W. repeat split; assumption.
Qed.

Lemma dragMoves_width (moves : list (Q * Q)) :
  forall (g : Gesture) (S : State),
  sameWidth g S ->
  g_isDate (fst (dragMoves formatToParts g S moves)) = g_isDate g
  /\ dateEnd (snd (dragMoves formatToParts g S moves))
     - dateStart (snd (dragMoves formatToParts g S moves))
     = dateEnd S - dateStart S
  /\ timeWidth (snd (dragMoves formatToParts g S moves)) = timeWidth S.
Proof.
  induction moves as [|[dx dy] rest IH]; intros g S W; cbn [dragMoves].
  - repeat split.
  - pose proof (onPointerMove_width g dx dy S W) as (K & W' & D & T).
    destruct (onPointerMove formatToParts g dx dy S) as [[g' S'] o]. cbn [fst snd] in *.
    destruct (IH g' S' W') as (K2 & D2 & T2).
    repeat split; congruence.
Qed.

Lemma recenterDateAt_width (ratio : Q) (S : State) :
  let S' := fst (recenterDateAt formatToParts ratio S) in
  dateEnd S' - dateStart S' = dateEnd S - dateStart S /\ timeWidth S' = timeWidth S.
Proof.
  unfold recenterDateAt, timeWidth.
  cbn [fst with_dates dateStart dateEnd timeStart timeEnd]. split; [lia | reflexivity].
Qed.

Lemma recenterTimeAt_width (ratio : Q) (S : State) :
  let S' := fst (recenterTimeAt formatToParts ratio S) in
  dateEnd S' - dateStart S' = dateEnd S - dateStart S /\ timeWidth S' = timeWidth S.
Proof.
  unfold recenterTimeAt, timeWidth.
  cbn [fst with_times dateStart dateEnd timeStart timeEnd].
  split; [reflexivity | apply wrap_shift_width].
Qed.

(** C10: a whole gesture on a track (pointer-down, any moves, pointer-up)
    is a drag of the window or, without a drag, a recenter on the released
    position; either way a date gesture leaves dateEnd - dateStart as it was
    and a time gesture leaves (timeEnd - timeStart) mod 1440 as it was. *)
Theorem C10_gestures_preserve_width (isDate : bool) (rectWidth : Q)
    (moves : list (Q * Q)) (left width clientX : Q) (S : State) :
  stepsValid S ->
  let S' := runGesture formatToParts isDate rectWidth moves left width clientX S in
  (isDate = true -> dateEnd S' - dateStart S' = dateEnd S - dateStart S)
  /\ (isDate = false -> timeWidth S' = timeWidth S).
Proof.
  intros _ S'. subst S'. unfold runGesture.
  assert (W : sameWidth (onPointerDown isDate rectWidth S) S).
  { unfold sameWidth, onPointerDown, snapshotOf, timeWidth.
    destruct isDate; reflexivity. }
  pose proof (dragMoves_width moves _ _ W) as (K & D & T).
  destruct (dragMoves formatToParts (onPointerDown isDate rectWidth S) S moves) as [g S1].
  cbn [fst snd onPointerDown g_isDate] in *.
  unfold onPointerUp. rewrite K.
  destruct (g_dragged g); cbn [negb fst].
  - split; intros _; assumption.
  - destruct isDate.
    + pose proof (recenterDateAt_width
                    (if Qeq_bool width 0 then 1 # 2
                     else (Qmin (left + width) (Qmax left clientX) - left) / width) S1)
        as (D' & T').
      destruct (recenterDateAt _ _ S1) as [S2 o]. cbn [fst] in *.
      split; [intros _; lia | discriminate].
    + pose proof (recenterTimeAt_width
                    (if Qeq_bool width 0 then 1 # 2
                     else (Qmin (left + width) (Qmax left clientX) - left) / width) S1)
        as (D' & T').
      destruct (recenterTimeAt _ _ S1) as [S2 o]. cbn [fst] in *.
      split; [discriminate | intros _; congruence].
Qed.

(** ** Public setters *)

(** C5, as amended: the timeRange setter rounds each input to the nearest
    integer, clamps it into [0, 1439] and then snaps it to the nearest
    multiple of timeStep, each endpoint on its own and with no swap.  The
    stored value is a multiple of timeStep at most half a step from the
    rounded-and-clamped input; a pair that does not cross midnight is stored
    as one that does not; and with timeStep = 1 the stored pair is exactly
    the rounded-and-clamped pair, crossing midnight exactly when it does. *)
Theorem C5_timeRange_rounds_clamps_snaps (startMinutes endMinutes : Q) (S : State) :
  timeMin S = 0 -> timeMax S = 1439 -> 1 <= timeStep S ->
  let s := clamp 0 1439 (Math_round startMinutes) in
  let e := clamp 0 1439 (Math_round endMinutes) in
  let S' := fst (set_timeRange formatToParts startMinutes endMinutes S) in
  (0 <= s <= 1439 /\ 0 <= e <= 1439)
  /\ timeStart S' = snapToStep s (timeStep S)
  /\ timeEnd S' = snapToStep e (timeStep S)
  /\ ((timeStep S | timeStart S') /\ (timeStep S | timeEnd S'))
  /\ (2 * Z.abs (timeStart S' - s) <= timeStep S /\ 2 * Z.abs (timeEnd S' - e) <= timeStep S)
  /\ (crossesMidnight (timeStart S') (timeEnd S') = true -> crossesMidnight s e = true)
  /\ (timeStep S = 1 ->
      timeStart S' = s /\ timeEnd S' = e
      /\ crossesMidnight (timeStart S') (timeEnd S') = crossesMidnight s e).
Proof.
  intros Hmin Hmax Hstep s e S'.
  pose proof (clamp_range 0 1439 (Math_round startMinutes) ltac:(lia)) as Rs.
  pose proof (clamp_range 0 1439 (Math_round endMinutes) ltac:(lia)) as Re.
  fold s in Rs. fold e in Re.
  assert (Es : timeStart S' = snapToStep s (timeStep S)).
  { subst S'. unfold set_timeRange, clampAndSyncTimes.
    cbn [fst with_times timeStart timeEnd timeMin timeMax timeStep].
    fold s. rewrite Hmin, Hmax. now rewrite (clamp_id 0 1439 s). }
  assert (Ee : timeEnd S' = snapToStep e (timeStep S)).
  { subst S'. unfold set_timeRange, clampAndSyncTimes.
    cbn [fst with_times timeStart timeEnd timeMin timeMax timeStep].
    fold e. rewrite Hmin, Hmax. now rewrite (clamp_id 0 1439 e). }
  pose proof (snapToStep_near s (timeStep S) ltac:(lia)) as [Ds Ns].
  pose proof (snapToStep_near e (timeStep S) ltac:(lia)) as [De Ne].
  rewrite Es, Ee.
  split; [split; assumption|]. split; [reflexivity|]. split; [reflexivity|].
  split; [split; assumption|]. split; [split; lia|]. split.
  - unfold crossesMidnight. intros C.
    apply Z.ltb_lt in C. apply Z.ltb_lt.
    destruct (Z.lt_ge_cases e s) as [|Hge]; [assumption|].
    pose proof (snapToStep_mono s e (timeStep S) ltac:(lia) Hge). lia.
  - intros ->. rewrite !snapToStep_step1. repeat split.
Qed.

(** What an emitted payload is made of. *)
Lemma emit_inversion (S : State) (p : Payload) :
  emit formatToParts S = Some p ->
  ev_timeZone p = timeZone S
  /\ ev_crossesMidnight p = crossesMidnight (timeStart S) (timeEnd S)
  /\ offsetTimestamp formatToParts (timeZone S) (idxToDate S (dateStart S)) (timeStart S)
     = Some (rangeStartDateTimeISO p)
  /\ offsetTimestamp formatToParts (timeZone S)
       (idxToDate S (dateEnd S) + (if crossesMidnight (timeStart S) (timeEnd S) then 1 else 0))
       (timeEnd S)
     = Some (rangeEndDateTimeISO p)
  /\ ev_dateStart p = fmtDateISO (idxToDate S (dateStart S))
  /\ ev_dateEnd p = fmtDateISO (idxToDate S (dateEnd S))
  /\ ev_timeStartMinutes p = timeStart S /\ ev_timeEndMinutes p = timeEnd S.
Proof.
  intros Hp. unfold emit in Hp. cbn [minToHMS] in Hp.
  unfold offsetTimestamp, crossesMidnight. cbn [minToHMS].
  destruct (toISOWithOffset _ (timeZone S) _ _ _ _ _ _) as [a|] eqn:A in Hp; [|discriminate].
  rewrite A.
  destruct (timeEnd S <? timeStart S) eqn:C.
  - rewrite setDate_shift in Hp.
    replace (idxToDate S (dateEnd S) +
             (getDate (idxToDate S (dateEnd S)) + 1
              - getDate (idxToDate S (dateEnd S))))
      with (idxToDate S (dateEnd S) + 1) in Hp by lia.
    destruct (toISOWithOffset _ (timeZone S) _ _ _ _ _ _) as [b|] eqn:B in Hp; [|discriminate].
    rewrite B. injection Hp as <-. repeat split.
  - rewrite Z.add_0_r.
    destruct (toISOWithOffset _ (timeZone S) _ _ _ _ _ _) as [b|] eqn:B in Hp; [|discriminate].
    rewrite B. injection Hp as <-. repeat split.
Qed.

(** [#emit] dispatches whenever both timestamps can be formed. *)
Lemma emit_defined (S : State) (a b : string) :
  offsetTimestamp formatToParts (timeZone S) (idxToDate S (dateStart S)) (timeStart S) = Some a ->
  offsetTimestamp formatToParts (timeZone S)
    (idxToDate S (dateEnd S) + (if crossesMidnight (timeStart S) (timeEnd S) then 1 else 0))
    (timeEnd S) = Some b ->
  exists p, emit formatToParts S = Some p
            /\ rangeStartDateTimeISO p = a /\ rangeEndDateTimeISO p = b.
Proof.
  unfold offsetTimestamp, crossesMidnight, emit. cbn [minToHMS]. intros A B.
  rewrite A.
  destruct (timeEnd S <? timeStart S) eqn:C.
  - rewrite setDate_shift.
    replace (idxToDate S (dateEnd S) +
             (getDate (idxToDate S (dateEnd S)) + 1
              - getDate (idxToDate S (dateEnd S))))
      with (idxToDate S (dateEnd S) + 1) by lia.
    rewrite B. eexists. split; [reflexivity|]. split; reflexivity.
  - rewrite Z.add_0_r in B. rewrite B.
    eexists. split; [reflexivity|]. split; reflexivity.
Qed.

(** C9, as amended: for every non-empty string z the timeZone setter stores
    z, with no validation and leaving the rest of the state alone, and the
    stored zone is the one passed to the offset computations of the preview
    and of the emitted payload.  (The empty string is ignored.) *)
Theorem C9_nonempty_zone_stored (z : string) (S : State) :
  z <> EmptyString ->
  let S' := fst (set_timeZone formatToParts z S) in
  let out := snd (set_timeZone formatToParts z S) in
  S' = with_timeZone S z
  /\ timeZone S' = z
  /\ renderTZ formatToParts S' =
       (iso <- offsetTimestamp formatToParts z (idxToDate S (dateStart S)) (timeStart S) ;;
        Some (z ++ " offset: " ++ slice_last 6 iso)%string)
  /\ (forall p, emit formatToParts S' = Some p ->
        ev_timeZone p = z
        /\ offsetTimestamp formatToParts z (idxToDate S (dateStart S)) (timeStart S)
           = Some (rangeStartDateTimeISO p)
        /\ offsetTimestamp formatToParts z
             (idxToDate S (dateEnd S)
              + (if crossesMidnight (timeStart S) (timeEnd S) then 1 else 0))
             (timeEnd S)
           = Some (rangeEndDateTimeISO p))
  /\ (forall events, out = Some events ->
        exists p, events = [(change, p)] /\ emit formatToParts S' = Some p)
  /\ ((forall t, formatToParts z t = None) -> out = None).
Proof.
  intros Hz S' out. subst S' out.
  destruct z as [|c z']; [congruence|]. clear Hz.
  cbn [set_timeZone fst snd]. set (z := String c z').
  split; [reflexivity|]. split; [reflexivity|]. split; [reflexivity|].
  split; [|split].
  - intros p Hp. apply emit_inversion in Hp.
    destruct Hp as (Tz & _ & A & B & _). split; [exact Tz|]. split; [exact A | exact B].
  - intros events. unfold andThen, dispatch.
    destruct (renderTZ _); [|discriminate].
    destruct (emit _) as [p|]; [|discriminate].
    intros E. injection E as <-. now exists p.
  - intros Hnone. unfold andThen, renderTZ.
    cbn [minToHMS]. unfold toISOWithOffset, localToEpoch, getOffsetMinutes.
    cbn [with_timeZone timeZone]. now rewrite Hnone.
Qed.

End Handlers.

(** ** Tick planning *)

Lemma Qlt_bool_true (x y : Q) : Qlt_bool x y = true -> (x < y)%Q.
Proof.
  unfold Qlt_bool. intros H. apply Qnot_le_lt. intros L.
  apply Qle_bool_iff in L. rewrite L in H. discriminate.
Qed.

Lemma Qlt_bool_false (x y : Q) : Qlt_bool x y = false -> (y <= x)%Q.
Proof.
  unfold Qlt_bool. intros H. apply Qle_bool_iff.
  destruct (Qle_bool y x); [reflexivity | discriminate].
Qed.

(** The loop keeps a candidate of least cost. *)
Lemma keepCloser_fold (totalDays target : Z) (l : list Z) :
  forall acc : Z * Q,
  snd acc = tickDiff totalDays target (fst acc) ->
  forall r, r = fold_left (keepCloser totalDays target) l acc ->
  snd r = tickDiff totalDays target (fst r)
  /\ (fst r = fst acc \/ In (fst r) l)
  /\ (tickDiff totalDays target (fst r) <= tickDiff totalDays target (fst acc))%Q
  /\ (forall c, In c l ->
        (tickDiff totalDays target (fst r) <= tickDiff totalDays target c)%Q).
Proof.
  induction l as [|c rest IH]; intros acc Hacc r Hr; cbn [fold_left] in Hr.
  - subst r. repeat split; auto using Qle_refl. intros c [].
  - unfold keepCloser at 2 in Hr. cbv zeta in Hr.
    destruct (Qlt_bool (tickDiff totalDays target c) (snd acc)) eqn:L.
    + destruct (IH (c, tickDiff totalDays target c) eq_refl r Hr) as (E & M & B & A).
      cbn [fst snd] in *.
      apply Qlt_bool_true in L. rewrite Hacc in L.
      repeat split.
      * exact E.
      * right. destruct M as [-> | M]; [now left | now right].
      * apply Qle_trans with (tickDiff totalDays target c);
          [exact B | now apply Qlt_le_weak].
      * intros c' [<- | Hin]; [exact B | now apply A].
    + destruct (IH acc Hacc r Hr) as (E & M & B & A).
      apply Qlt_bool_false in L. rewrite Hacc in L.
      repeat split.
      * exact E.
      * destruct M as [M | M]; [now left | right; now right].
      * exact B.
      * intros c' [<- | Hin];
          [now apply Qle_trans with (tickDiff totalDays target (fst acc)) | now apply A].
Qed.

(** C8: chooseDateTickStep(totalDays, 7) is one of the candidates
    1, 2, 5, 7, 14, 30, 60, 90, 120, 180, 365 and no candidate has a smaller
    |totalDays / candidate - 7|, for every totalDays (those from 1 on
    included); and chooseDateTickStep(365, 7) = 60. *)
Theorem C8_tick_step_minimizes (totalDays : Z) :
  In (chooseDateTickStep totalDays 7) dateTickCandidates
  /\ minimizesTickDiff totalDays 7 (chooseDateTickStep totalDays 7)
  /\ chooseDateTickStep 365 7 = 60.
Proof.
  assert (G : forall r, r = fold_left (keepCloser totalDays 7) dateTickCandidates
                              (1, tickDiff totalDays 7 1) ->
                        In (fst r) dateTickCandidates
                        /\ minimizesTickDiff totalDays 7 (fst r)).
  { intros r Hr.
    destruct (keepCloser_fold totalDays 7 dateTickCandidates
                (1, tickDiff totalDays 7 1) eq_refl r Hr) as (_ & M & _ & A).
    split; [|exact A].
    destruct M as [M | M]; [|exact M].
    rewrite M. left. reflexivity. }
  destruct (G _ eq_refl) as [G1 G2].
  split; [exact G1|]. split; [exact G2|].
  vm_compute. reflexivity.
Qed.



(** ** The emitted payload *)

Section SameFormatter.

(** Two formatters that agree on the zone [tz]. *)
Variables (f g : string -> Z -> option DateParts) (tz : string).
Hypothesis agree : forall t, f tz t = g tz t.

Lemma getOffsetMinutes_ext (epochMs : Z) :
  getOffsetMinutes f tz epochMs = getOffsetMinutes g tz epochMs.
Proof using agree. unfold getOffsetMinutes. now rewrite agree. Qed.

Lemma refineOffset_ext (guess : Z) (i : nat) :
  forall off epoch,
  refineOffset f tz guess i off epoch = refineOffset g tz guess i off epoch.
Proof using agree.
  induction i as [|i IH]; intros off epoch; cbn [refineOffset]; [reflexivity|].
  rewrite getOffsetMinutes_ext.
  destruct (getOffsetMinutes g tz epoch) as [noff|]; [|reflexivity].
  destruct (noff =? off); [reflexivity | apply IH].
Qed.

Lemma localToEpoch_ext (y M d h m s : Z) :
  localToEpoch f tz y M d h m s = localToEpoch g tz y M d h m s.
Proof using agree.
  unfold localToEpoch. rewrite getOffsetMinutes_ext.
  destruct (getOffsetMinutes g tz _) as [off|]; [|reflexivity].
  rewrite refineOffset_ext.
  destruct (refineOffset g tz _ _ _ _) as [epoch|]; [|reflexivity].
  now rewrite agree.
Qed.

Lemma toISOWithOffset_ext (y M d h m s : Z) :
  toISOWithOffset f tz y M d h m s = toISOWithOffset g tz y M d h m s.
Proof using agree.
  unfold toISOWithOffset. rewrite localToEpoch_ext.
  destruct (localToEpoch g tz y M d h m s) as [epoch|]; [|reflexivity].
  now rewrite getOffsetMinutes_ext.
Qed.

Lemma offsetTimestamp_ext (d : JSDate) (minutes : Z) :
  offsetTimestamp f tz d minutes = offsetTimestamp g tz d minutes.
Proof using agree. unfold offsetTimestamp. cbn [minToHMS]. apply toISOWithOffset_ext. Qed.

End SameFormatter.

(** C4: every emitted payload has crossesMidnight = (timeEnd < timeStart);
    its start timestamp is toISOWithOffset of the start date at the start
    time, its end timestamp toISOWithOffset of the end date, one day later
    exactly when crossesMidnight, at the end time; a payload is emitted
    whenever both timestamps can be formed.  In zone "UTC" with the
    selection 2026-02-01 .. 2026-02-28 and the times 1320 and 360 the
    payload has crossesMidnight = true, start "2026-02-01T22:00:00+00:00"
    and end "2026-03-01T06:00:00+00:00". *)
Theorem C4_emit_payload (formatToParts : string -> Z -> option DateParts) (S : State) :
  (forall t, formatToParts "UTC"%string t = Some (utcParts t)) ->
  let crosses := crossesMidnight (timeStart S) (timeEnd S) in
  let startStamp :=
    offsetTimestamp formatToParts (timeZone S) (idxToDate S (dateStart S)) (timeStart S) in
  let endStamp :=
    offsetTimestamp formatToParts (timeZone S)
      (idxToDate S (dateEnd S) + (if crosses then 1 else 0)) (timeEnd S) in
  crosses = (timeEnd S <? timeStart S)
  /\ (forall p, emit formatToParts S = Some p ->
        ev_crossesMidnight p = crosses
        /\ startStamp = Some (rangeStartDateTimeISO p)
        /\ endStamp = Some (rangeEndDateTimeISO p))
  /\ (forall a b, startStamp = Some a -> endStamp = Some b ->
        exists p, emit formatToParts S = Some p)
  /\ (timeZone S = "UTC"%string ->
      idxToDate S (dateStart S) = newDate 2026 1 1 ->
      idxToDate S (dateEnd S) = newDate 2026 1 28 ->
      timeStart S = 1320 -> timeEnd S = 360 ->
      exists p, emit formatToParts S = Some p
        /\ ev_dateStart p = "2026-02-01"%string /\ ev_dateEnd p = "2026-02-28"%string
        /\ ev_crossesMidnight p = true
        /\ rangeStartDateTimeISO p = "2026-02-01T22:00:00+00:00"%string
        /\ rangeEndDateTimeISO p = "2026-03-01T06:00:00+00:00"%string).
Proof.
  intros HUTC crosses startStamp endStamp. subst crosses startStamp endStamp.
  split; [reflexivity|]. split; [|split].
  - intros p Hp. apply emit_inversion in Hp.
    destruct Hp as (_ & C & A & B & _). split; [exact C|]. split; [exact A | exact B].
  - intros a b A B.
    destruct (emit_defined formatToParts S a b A B) as (p & Hp & _). now exists p.
  - intros Tz Ds De Ts Te.
    assert (Agree : forall t, formatToParts "UTC"%string t = utcOnlyFormat "UTC" t)
      by (intros t; rewrite HUTC; reflexivity).
    destruct (emit_defined formatToParts S
                "2026-02-01T22:00:00+00:00" "2026-03-01T06:00:00+00:00")
      as (p & Hp & A & B).
    + rewrite Tz, Ds, Ts.
      rewrite (offsetTimestamp_ext _ _ _ Agree). vm_compute. reflexivity.
    + rewrite Tz, De, Ts, Te.
      rewrite (offsetTimestamp_ext _ _ _ Agree). vm_compute. reflexivity.
    + exists p. split; [exact Hp|].
      apply emit_inversion in Hp.
      destruct Hp as (_ & C & _ & _ & D1 & D2 & _).
      rewrite D1, D2, C, Ds, De, Ts, Te. repeat split; assumption.
Qed.

(** ** Concrete runs *)

Example calendar_fields_of_2026_02_01 :
  let d := newDate 2026 1 1 in
  (getFullYear d, getMonth d, getDate d, fmtDateISO d) = (2026, 1, 1, "2026-02-01"%string).
Proof. vm_compute. reflexivity. Qed.

(** A well-formed attribute naming a day that does not exist is not
    rejected: the constructor carries the overflow into the next month. *)
Example coerceDateOnly_carries_overflow :
  coerceDateOnly (VString "2026-02-30") = Some (newDate 2026 2 2)
  /\ coerceDateOnly (VString "2026-2-30") = None
  /\ coerceDateOnly VNull = None.
Proof. vm_compute. repeat split. Qed.

Example constructor_two_digit_year :
  getFullYear (newDate 99 11 31) = 1999 /\ getFullYear (newDate 100 0 0) = 99.
Proof. vm_compute. split; reflexivity. Qed.

Example tick_steps_for_a_spread_of_spans :
  map (fun t => chooseDateTickStep t 7) [1; 7; 14; 30; 60; 90; 180; 365; 730; 3650]
  = [1; 1; 2; 5; 7; 14; 30; 60; 120; 365].
Proof. vm_compute. reflexivity. Qed.

(** ** Instances of the theorems *)

Lemma summerTimeHost_steady (m n : Z) :
  2 * Z.abs (summerTimeHost m - summerTimeHost n) < msPerDay.
Proof.
  unfold summerTimeHost, msPerDay.
  destruct (_ && _), (_ && _); lia.
Defined.


Lemma C3_time_drag_witness :
  let g := onPointerDown false 1440 februaryState in
  let S' := snd (fst (onPointerMove utcOnlyFormat g 120 0 februaryState)) in
  timeStart S' = 0 /\ timeEnd S' = 480.
Proof.
  intros g S'.
  destruct (C3_time_drag_wraps utcOnlyFormat g 120 0 februaryState eq_refl)
    as (_ & _ & _ & H); [vm_compute; discriminate|].
  destruct (H eq_refl eq_refl eq_refl eq_refl) as (Hs & He & _).
  split; [exact Hs | exact He].
Defined.

Lemma C4_emit_witness :
  exists p, emit utcOnlyFormat februaryState = Some p
    /\ ev_dateStart p = "2026-02-01"%string /\ ev_dateEnd p = "2026-02-28"%string
    /\ ev_crossesMidnight p = true
    /\ rangeStartDateTimeISO p = "2026-02-01T22:00:00+00:00"%string
    /\ rangeEndDateTimeISO p = "2026-03-01T06:00:00+00:00"%string.
Proof.
  destruct (C4_emit_payload utcOnlyFormat februaryState (fun t => eq_refl))
    as (_ & _ & _ & H).
  apply H; reflexivity.
Defined.

Lemma C5_timeRange_witness :
  let S' := fst (set_timeRange utcOnlyFormat 1327 (725 # 2) februaryState) in
  timeStart S' = snapToStep 1327 15 /\ timeEnd S' = snapToStep 363 15.
Proof.
  intros S'.
  destruct (C5_timeRange_rounds_clamps_snaps utcOnlyFormat 1327 (725 # 2) februaryState
              eq_refl eq_refl) as (_ & Hs & He & _); [vm_compute; discriminate|].
  split; [exact Hs | exact He].
Defined.

Lemma C6_round_trip_witness :
  let d := newDate 2026 1 15 in
  idxToDate februaryState (dateToIdx summerTimeHost februaryState d) = d
  /\ dateToIdx summerTimeHost februaryState (idxToDate februaryState 14) = 14.
Proof.
  intros d.
  destruct (C6_index_round_trip_outside_two_digit_years summerTimeHost
              summerTimeHost_steady februaryState eq_refl) as (H1 & H2 & _).
  split; [apply H1 | apply H2]; reflexivity.
Defined.


Lemma C9_zone_stored_witness :
  timeZone (fst (set_timeZone utcOnlyFormat "Europe/Berlin" februaryState))
  = "Europe/Berlin"%string.
Proof.
  destruct (C9_nonempty_zone_stored utcOnlyFormat "Europe/Berlin" februaryState)
    as (_ & H & _); [discriminate | exact H].
Defined.

Lemma C10_gesture_width_witness :
  let S := with_dates februaryState 5 10 in
  let S' := runGesture utcOnlyFormat true 270 [(3, 0); (100, 0)]%Q 0 270 135 S in
  dateEnd S' - dateStart S' = 10 - 5.
Proof.
  intros S S'.
  destruct (C10_gestures_preserve_width utcOnlyFormat true 270 [(3, 0); (100, 0)]%Q
              0 270 135 S) as [H _].
  - split; vm_compute; discriminate.
  - exact (H eq_refl).
Defined.

(** ** Inputs at which the specification as written fails *)

(** C5 as stated: with the default timeStep = 15 the inputs (10, 9) are
    stored as (15, 15): neither value is the rounded-and-clamped input, and
    the inputs cross midnight while the stored pair does not. *)
Lemma C5_counterexample :
  let S' := fst (set_timeRange utcOnlyFormat 10 9 februaryState) in
  let s := clamp 0 1439 (Math_round 10) in
  let e := clamp 0 1439 (Math_round 9) in
  timeStart S' = 15 /\ timeEnd S' = 15
  /\ timeStart S' <> s /\ timeEnd S' <> e
  /\ crossesMidnight s e = true
  /\ crossesMidnight (timeStart S') (timeEnd S') = false.
Proof. vm_compute. repeat split; discriminate. Qed.

(** C6 as stated: min-date "0100-01-00" makes minDate the last day of the
    year 99, and [#daysBetween] rebuilds it as a day of 1999.  With
    max-date "0100-01-02" as d, which is after minDate, the index of d is
    far below zero and does not lead back to d, the index 1 does not come
    back as 1, and dateMax, the day count from minDate to d, is negative. *)
Lemma C6_counterexample :
  let S := year99State in
  let d := maxDate S in
  coerceDateOnly (VString "0100-01-00") = Some (minDate S)
  /\ coerceDateOnly (VString "0100-01-02") = Some d
  /\ fmtDateISO (minDate S) = "99-12-31"%string
  /\ fmtDateISO d = "100-01-02"%string
  /\ getTime utcHost (minDate S) <= getTime utcHost d
  /\ idxToDate S (dateToIdx utcHost S d) <> d
  /\ dateToIdx utcHost S (idxToDate S 1) <> 1
  /\ dateMax S = daysBetween utcHost (minDate S) d
  /\ dateMax S < 0.
Proof. vm_compute. repeat split; discriminate. Qed.

(** C9 as stated: the empty string is a string the setter does not store. *)
Lemma C9_counterexample :
  timeZone (fst (set_timeZone utcOnlyFormat "" februaryState)) <> ""%string
  /\ set_timeZone utcOnlyFormat "" februaryState = (februaryState, Some []).
Proof. split; [discriminate | reflexivity]. Qed.

(** * Further properties of the component *)

(** ** Clamping twice *)

(** A clamped and snapped value is a fixed point of clamping and snapping,
    also when the snap went past the upper bound. *)
Lemma snap_clamp_fixed (hi v step : Z) :
  1 <= step ->
  snapToStep (clamp 0 hi (snapToStep (clamp 0 hi v) step)) step
  = snapToStep (clamp 0 hi v) step.
Proof.
  intros Hs.
  set (c := clamp 0 hi v). set (y := snapToStep c step).
  assert (Hc0 : 0 <= c) by (unfold c, clamp; lia).
  pose proof (snapToStep_near c step ltac:(lia)) as [[k Hk] Ny].
  pose proof (snapToStep_nonneg c step ltac:(lia) Hc0) as Py.
  fold y in Hk, Ny, Py.
  destruct (Z.le_gt_cases y hi) as [Hle | Hgt].
  - rewrite (clamp_id 0 hi y) by lia. rewrite Hk. apply snapToStep_multiple. lia.
  - destruct (Z.le_gt_cases 0 hi) as [Hhi | Hneg].
    + assert (Ec : clamp 0 hi y = hi) by (unfold clamp; lia).
      rewrite Ec.
      assert (Hchi : c <= hi) by (unfold c, clamp; lia).
      pose proof (snapToStep_mono c hi step ltac:(lia) Hchi) as M. fold y in M.
      pose proof (snapToStep_near hi step ltac:(lia)) as [[k' Hk'] N'].
      rewrite Hk'. rewrite Hk' in M, N'. rewrite Hk. rewrite Hk in M, Ny, Hgt.
      assert (k <= k') by (apply Z.mul_le_mono_pos_r with (p := step); lia).
      assert (k' < k + 1) by (apply Z.mul_lt_mono_pos_r with (p := step); lia).
      f_equal. lia.
    + assert (E0 : forall w, clamp 0 hi w = 0) by (intros w; unfold clamp; lia).
      unfold y, c. now rewrite !E0.
Qed.

(** The swap of [#clampAndSyncDates] orders the two snapped values. *)
Lemma clampAndSyncDates_ordered (S : State) :
  let s := snapToStep (clamp (dateMin S) (dateMax S) (dateStart S)) (dateStepDays S) in
  let e := snapToStep (clamp (dateMin S) (dateMax S) (dateEnd S)) (dateStepDays S) in
  clampAndSyncDates S = with_dates S (Z.min s e) (Z.max s e).
Proof.
  intros s e. unfold clampAndSyncDates. fold s e.
  destruct (Z.gtb_spec s e).
  - rewrite Z.min_r, Z.max_l by lia. reflexivity.
  - rewrite Z.min_l, Z.max_r by lia. reflexivity.
Qed.

(** X3: [#clampAndSyncDates] is idempotent: clamping a selection that was
    just clamped changes nothing, whatever dateMax and the step are (also
    when the first pass snapped an endpoint past dateMax). *)
Theorem X3_clampAndSyncDates_idempotent (S : State) :
  dateMin S = 0 -> 1 <= dateStepDays S ->
  clampAndSyncDates (clampAndSyncDates S) = clampAndSyncDates S.
Proof.
  intros Hmin Hstep.
  pose proof (snap_clamp_fixed (dateMax S) (dateStart S) (dateStepDays S) Hstep) as Fs.
  pose proof (snap_clamp_fixed (dateMax S) (dateEnd S) (dateStepDays S) Hstep) as Fe.
  rewrite (clampAndSyncDates_ordered (clampAndSyncDates S)).
  rewrite (clampAndSyncDates_ordered S).
  cbn [with_dates dateMin dateMax dateStart dateEnd dateStepDays].
  rewrite Hmin.
  set (s := snapToStep (clamp 0 (dateMax S) (dateStart S)) (dateStepDays S)) in *.
  set (e := snapToStep (clamp 0 (dateMax S) (dateEnd S)) (dateStepDays S)) in *.
  assert (Fmin : snapToStep (clamp 0 (dateMax S) (Z.min s e)) (dateStepDays S) = Z.min s e)
    by (destruct (Z.min_spec s e) as [[_ ->] | [_ ->]]; assumption).
  assert (Fmax : snapToStep (clamp 0 (dateMax S) (Z.max s e)) (dateStepDays S) = Z.max s e)
    by (destruct (Z.max_spec s e) as [[_ ->] | [_ ->]]; assumption).
  rewrite Fmin, Fmax.
  rewrite (Z.min_l (Z.min s e) (Z.max s e)), (Z.max_r (Z.min s e) (Z.max s e)) by lia.
  reflexivity.
Qed.

(** X4: [#clampAndSyncTimes] is idempotent, for every step from 1 on. *)
Theorem X4_clampAndSyncTimes_idempotent (S : State) :
  timeMin S = 0 -> 1 <= timeStep S ->
  clampAndSyncTimes (clampAndSyncTimes S) = clampAndSyncTimes S.
Proof.
  intros Hmin Hstep.
  unfold clampAndSyncTimes.
  cbn [with_times timeMin timeMax timeStart timeEnd timeStep].
  rewrite Hmin, !snap_clamp_fixed by assumption. reflexivity.
Qed.

(** ** Whole gestures *)

Lemma minShiftStep_multiple (lo a step : Z) : (step | minShiftStep lo a step).
Proof. unfold minShiftStep. apply Z.divide_factor_r. Qed.

Lemma maxShiftStep_multiple (hi b step : Z) : (step | maxShiftStep hi b step).
Proof. unfold maxShiftStep. apply Z.divide_factor_r. Qed.

Lemma steppedShift_multiple (ratio : Q) (scale step : Z) :
  (step | steppedShift ratio scale step).
Proof. unfold steppedShift. apply Z.divide_factor_r. Qed.

(** The clamped shift stays on the step grid. *)
Lemma clampShift_multiple (lo hi a b step shift : Z) :
  (step | shift) -> (step | clampShift lo hi a b step shift).
Proof.
  intros D. unfold clampShift.
  pose proof (minShiftStep_multiple lo a step) as Dl.
  pose proof (maxShiftStep_multiple hi b step) as Dh.
  destruct (Z.max_spec (minShiftStep lo a step) (Z.min (maxShiftStep hi b step) shift))
    as [[_ ->] | [_ ->]]; [|assumption].
  destruct (Z.min_spec (maxShiftStep hi b step) shift) as [[_ ->] | [_ ->]]; assumption.
Qed.

Lemma wrap_in_day (v : Z) : 0 <= wrap v <= 1439.
Proof.
  rewrite wrap_mod. pose proof (Z.mod_pos_bound v 1440 ltac:(lia)). lia.
Qed.

(** Wrapping keeps a value on the step grid when the step divides the day. *)
Lemma wrap_multiple (step v : Z) : (step | 1440) -> (step | v) -> (step | wrap v).
Proof.
  intros D1 Dv. rewrite wrap_mod. rewrite Z.mod_eq by lia.
  apply Z.divide_sub_r; [assumption|].
  apply Z.divide_mul_l. assumption.
Qed.

(** Shifting a valid date selection by a clamped multiple of the step. *)
Lemma shifted_dates_valid (S : State) (a b shift : Z) :
  1 <= dateStepDays S ->
  dateMin S <= a -> a <= b -> b <= dateMax S ->
  (dateStepDays S | a) -> (dateStepDays S | b) -> (dateStepDays S | shift) ->
  dateSelectionValid
    (with_dates S
       (a + clampShift (dateMin S) (dateMax S) a b (dateStepDays S) shift)
       (b + clampShift (dateMin S) (dateMax S) a b (dateStepDays S) shift)).
Proof.
  intros Hs Ha Hab Hb Da Db Dsh.
  pose proof (clampShift_bounds (dateMin S) (dateMax S) a b (dateStepDays S) shift
                Hs Ha Hb) as (_ & B & _).
  pose proof (clampShift_multiple (dateMin S) (dateMax S) a b (dateStepDays S) shift Dsh) as D.
  unfold dateSelectionValid.
  cbn [with_dates dateMin dateMax dateStart dateEnd dateStepDays].
  repeat split; try lia; apply Z.divide_add_r; assumption.
Qed.

Section WholeGestures.

Variable formatToParts : string -> Z -> option DateParts.

Lemma onPointerMove_date_valid (g : Gesture) (dx dy : Q) (S : State) :
  1 <= dateStepDays S ->
  dateGestureValid g S ->
  dateGestureValid (fst (fst (onPointerMove formatToParts g dx dy S)))
                   (snd (fst (onPointerMove formatToParts g dx dy S))).
Proof.
  intros Hs (K & Emin & Emax & Estep & Ha & Hab & Hb & Da & Db & V).
  unfold onPointerMove. rewrite K.
  destruct (g_dragged g || Qlt_bool 36 (dx * dx + dy * dy)); cbn [negb fst snd].
  - unfold dateGestureValid. cbn [g_isDate g_init].
    cbn [with_dates dateMin dateMax dateStepDays].
    rewrite Emin, Emax, Estep in *.
    repeat (split; [first [assumption | reflexivity]|]).
    apply shifted_dates_valid; try assumption.
    apply steppedShift_multiple.
  - unfold dateGestureValid. cbn [g_isDate g_init].
    repeat (split; [first [assumption | reflexivity]|]). exact V.
Qed.

Lemma dragMoves_date_valid (moves : list (Q * Q)) :
  forall (g : Gesture) (S : State),
  1 <= dateStepDays S ->
  dateGestureValid g S ->
  dateGestureValid (fst (dragMoves formatToParts g S moves))
                   (snd (dragMoves formatToParts g S moves))
  /\ dateStepDays (snd (dragMoves formatToParts g S moves)) = dateStepDays S.
Proof.
  induction moves as [|[dx dy] rest IH]; intros g S Hs V; cbn [dragMoves].
  - split; [exact V | reflexivity].
  - pose proof (onPointerMove_date_valid g dx dy S Hs V) as V'.
    assert (E : dateStepDays (snd (fst (onPointerMove formatToParts g dx dy S)))
                = dateStepDays S).
    { destruct V as (K & _). unfold onPointerMove. rewrite K.
      destruct (g_dragged g || Qlt_bool 36 (dx * dx + dy * dy)); reflexivity. }
    destruct (onPointerMove formatToParts g dx dy S) as [[g' S'] o]. cbn [fst snd] in *.
    destruct (IH g' S' ltac:(lia) V') as [V2 E2]. split; [exact V2 | congruence].
Qed.

Lemma recenterDateAt_valid (ratio : Q) (S : State) :
  1 <= dateStepDays S ->
  dateSelectionValid S ->
  dateSelectionValid (fst (recenterDateAt formatToParts ratio S)).
Proof.
  intros Hs (Ha & Hab & Hb & Da & Db).
  unfold recenterDateAt. cbn [fst].
  apply shifted_dates_valid; try assumption.
  apply Z.divide_factor_r.
Qed.

(** X5: a whole gesture on the date track (pointer-down, any moves,
    pointer-up, be it a drag or a click that recenters) keeps a valid date
    selection valid: ordered, within [dateMin, dateMax] and on the step
    grid. *)
Theorem X5_date_gesture_keeps_selection_valid
    (rectWidth : Q) (moves : list (Q * Q)) (left width clientX : Q) (S : State) :
  1 <= dateStepDays S ->
  dateSelectionValid S ->
  dateSelectionValid (runGesture formatToParts true rectWidth moves left width clientX S).
Proof.
  intros Hs V. unfold runGesture.
  assert (G : dateGestureValid (onPointerDown true rectWidth S) S).
  { destruct V as (Ha & Hab & Hb & Da & Db).
    unfold dateGestureValid, dateSelectionValid, onPointerDown, snapshotOf.
    cbn [g_isDate g_init sn_a sn_b sn_min sn_max sn_step]. repeat split; assumption. }
  pose proof (dragMoves_date_valid moves _ _ Hs G) as [G' E].
  destruct (dragMoves formatToParts (onPointerDown true rectWidth S) S moves) as [g S1].
  cbn [fst snd] in *.
  destruct G' as (K & _ & _ & _ & _ & _ & _ & _ & _ & V1).
  unfold onPointerUp. rewrite K.
  destruct (g_dragged g); cbn [negb fst]; [exact V1|].
  pose proof (recenterDateAt_valid
                (if Qeq_bool width 0 then 1 # 2
                 else (Qmin (left + width) (Qmax left clientX) - left) / width) S1
                ltac:(lia) V1) as V2.
  destruct (recenterDateAt formatToParts _ S1) as [S2 o]. exact V2.
Qed.

Lemma onPointerMove_time_valid (g : Gesture) (dx dy : Q) (S : State) :
  timeGestureValid g S ->
  timeGestureValid (fst (fst (onPointerMove formatToParts g dx dy S)))
                   (snd (fst (onPointerMove formatToParts g dx dy S))).
Proof.
  intros (K & R). unfold onPointerMove. rewrite K.
  destruct (g_dragged g) eqn:D; cbn [orb negb fst snd].
  - split; [reflexivity|]. intros _. unfold timeSelectionInDay.
    cbn [with_times timeStart timeEnd]. split; apply wrap_in_day.
  - destruct (Qlt_bool 36 (dx * dx + dy * dy)); cbn [negb fst snd].
    + split; [reflexivity|]. intros _. unfold timeSelectionInDay.
      cbn [with_times timeStart timeEnd]. split; apply wrap_in_day.
    + split; [reflexivity|]. cbn [g_dragged]. discriminate.
Qed.

Lemma onPointerMove_time_aligned (g : Gesture) (dx dy : Q) (S : State) :
  g_isDate g = false ->
  (timeStep S | 1440) ->
  timeGestureAligned g S ->
  timeGestureAligned (fst (fst (onPointerMove formatToParts g dx dy S)))
                     (snd (fst (onPointerMove formatToParts g dx dy S)))
  /\ timeStep (snd (fst (onPointerMove formatToParts g dx dy S))) = timeStep S.
Proof.
  intros K D1 (Es & Da & Db & A). unfold onPointerMove. rewrite K.
  destruct (g_dragged g || Qlt_bool 36 (dx * dx + dy * dy)); cbn [negb fst snd].
  - split; [|reflexivity].
    unfold timeGestureAligned, timeSelectionAligned.
    cbn [g_init with_times timeStart timeEnd timeStep].
    repeat (split; [assumption|]).
    rewrite <- Es.
    split; apply wrap_multiple; try (rewrite Es; assumption);
      apply Z.divide_add_r; try assumption; apply steppedShift_multiple.
  - split; [|reflexivity].
    unfold timeGestureAligned. cbn [g_init]. repeat (split; [assumption|]). exact A.
Qed.

Lemma dragMoves_time_valid (moves : list (Q * Q)) :
  forall (g : Gesture) (S : State),
  timeGestureValid g S ->
  timeGestureValid (fst (dragMoves formatToParts g S moves))
                   (snd (dragMoves formatToParts g S moves)).
Proof.
  induction moves as [|[dx dy] rest IH]; intros g S V; cbn [dragMoves]; [exact V|].
  pose proof (onPointerMove_time_valid g dx dy S V) as V'.
  destruct (onPointerMove formatToParts g dx dy S) as [[g' S'] o]. cbn [fst snd] in *.
  now apply IH.
Qed.

Lemma dragMoves_time_aligned (moves : list (Q * Q)) :
  forall (g : Gesture) (S : State),
  g_isDate g = false ->
  (timeStep S | 1440) ->
  timeGestureAligned g S ->
  timeSelectionAligned (snd (dragMoves formatToParts g S moves))
  /\ timeStep (snd (dragMoves formatToParts g S moves)) = timeStep S.
Proof.
  induction moves as [|[dx dy] rest IH]; intros g S K D1 A; cbn [dragMoves].
  - destruct A as (_ & _ & _ & A). split; [exact A | reflexivity].
  - pose proof (onPointerMove_time_aligned g dx dy S K D1 A) as [A' E].
    assert (K' : g_isDate (fst (fst (onPointerMove formatToParts g dx dy S))) = false).
    { unfold onPointerMove. rewrite K.
      destruct (g_dragged g || Qlt_bool 36 (dx * dx + dy * dy)); reflexivity. }
    destruct (onPointerMove formatToParts g dx dy S) as [[g' S'] o]. cbn [fst snd] in *.
    destruct (IH g' S' K' ltac:(rewrite E; exact D1) A') as [A2 E2].
    split; [exact A2 | congruence].
Qed.

(** X7: a whole gesture on the time track always ends with both ends of
    the selection within 0..1439, whatever they were before (a selection
    snapped to 1440 is brought back into the day); and when timeStep
    divides 1440, a selection on the step grid stays on it. *)
Theorem X7_time_gesture_ends_within_day
    (rectWidth : Q) (moves : list (Q * Q)) (left width clientX : Q) (S : State) :
  1 <= timeStep S ->
  let S' := runGesture formatToParts false rectWidth moves left width clientX S in
  timeSelectionInDay S'
  /\ ((timeStep S | 1440) -> timeSelectionAligned S -> timeSelectionAligned S').
Proof.
  intros Hs S'. subst S'. unfold runGesture.
  assert (V : timeGestureValid (onPointerDown false rectWidth S) S)
    by (split; [reflexivity | discriminate]).
  pose proof (dragMoves_time_valid moves _ _ V) as [K R].
  assert (Al : (timeStep S | 1440) -> timeSelectionAligned S ->
               timeSelectionAligned
                 (snd (dragMoves formatToParts (onPointerDown false rectWidth S) S moves))
               /\ timeStep (snd (dragMoves formatToParts
                                   (onPointerDown false rectWidth S) S moves))
                  = timeStep S).
  { intros D1 A. apply dragMoves_time_aligned; [reflexivity | exact D1 |].
    destruct A as [As Ae]. unfold timeGestureAligned, onPointerDown, snapshotOf.
    cbn [g_init sn_step sn_a sn_b]. repeat split; assumption. }
  destruct (dragMoves formatToParts (onPointerDown false rectWidth S) S moves) as [g S1].
  cbn [fst snd] in *.
  unfold onPointerUp. rewrite K.
  destruct (g_dragged g); cbn [negb fst].
  - split; [apply R; reflexivity|]. intros D1 A. now destruct (Al D1 A).
  - unfold recenterTimeAt. cbn [fst].
    split.
    + unfold timeSelectionInDay. cbn [with_times timeStart timeEnd].
      split; apply wrap_in_day.
    + intros D1 A. destruct (Al D1 A) as [[As Ae] E].
      unfold timeSelectionAligned. cbn [with_times timeStart timeEnd timeStep].
      rewrite <- E in D1.
      split; apply wrap_multiple; try assumption;
        apply Z.divide_add_r; try assumption; apply Z.divide_factor_r.
Qed.

End WholeGestures.

(** ** Recentering *)

Lemma Math_round_near (q : Q) :
  (q - (1 # 2) < inject_Z (Math_round q) <= q + (1 # 2))%Q.
Proof.
  unfold Math_round.
  pose proof (Qfloor_le (q + (1 # 2))) as L.
  pose proof (Qlt_floor (q + (1 # 2))) as U.
  rewrite inject_Z_plus in U. change (inject_Z 1) with 1%Q in U.
  split; lra.
Qed.

(** Rounding to a multiple of the step moves a number by at most half a
    step. *)
Lemma round_to_step_near (x : Q) (step : Z) :
  1 <= step ->
  (Qabs (inject_Z (Math_round (x / inject_Z step) * step) - x) <= inject_Z step / 2)%Q.
Proof.
  intros Hs.
  assert (Sp : (0 < inject_Z step)%Q).
  { change 0%Q with (inject_Z 0). rewrite <- Zlt_Qlt. lia. }
  pose proof (Math_round_near (x / inject_Z step)) as [L U].
  rewrite inject_Z_mult.
  set (r := inject_Z (Math_round (x / inject_Z step))) in *.
  set (s := inject_Z step) in *.
  assert (E : (x == (x / s) * s)%Q) by (field; lra).
  set (q := (x / s)%Q) in *.
  clearbody q. clearbody r. clearbody s.
  apply Qabs_Qle_condition. rewrite E. split.
  - apply Qle_minus_iff.
    setoid_replace (r * s - q * s + - - (s / 2))%Q with ((r - q + (1 # 2)) * s)%Q by field.
    apply Qmult_le_0_compat; lra.
  - apply Qle_minus_iff.
    setoid_replace (s / 2 + - (r * s - q * s))%Q with ((q + (1 # 2) - r) * s)%Q by field.
    apply Qmult_le_0_compat; lra.
Qed.

Lemma unit_ratio (ratio : Q) : (0 <= Qmax 0 (Qmin 1 ratio) <= 1)%Q.
Proof.
  split.
  - apply Q.le_max_l.
  - apply Q.max_lub; [lra | apply Q.le_min_l].
Qed.

(** The step-aligned bounds of a shift lie less than one step inside the
    exact ones. *)
Lemma minShiftStep_tight (lo a step : Z) :
  1 <= step -> lo - a <= minShiftStep lo a step < lo - a + step.
Proof.
  intros Hs. unfold minShiftStep. rewrite Math_ceil_div by lia.
  pose proof (Z.div_mod (- (lo - a)) step ltac:(lia)) as E.
  pose proof (Z.mod_pos_bound (- (lo - a)) step ltac:(lia)) as B.
  nia.
Qed.

Lemma maxShiftStep_tight (hi b step : Z) :
  1 <= step -> hi - b - step < maxShiftStep hi b step <= hi - b.
Proof.
  intros Hs. unfold maxShiftStep. rewrite Math_floor_div by lia.
  pose proof (Z.div_mod (hi - b) step ltac:(lia)) as E.
  pose proof (Z.mod_pos_bound (hi - b) step ltac:(lia)) as B.
  nia.
Qed.

Section Recenter.

Variable formatToParts : string -> Z -> option DateParts.

(** X6: a click on the date track aims the centre of the selection at
    target = dateMin + r * (dateMax - dateMin), r being the click ratio
    held within 0..1, so the target lies within the bounds.  When the
    step-rounded shift fits between the step-aligned bounds the new centre
    is at most half a step from the target; otherwise the selection is
    pushed towards the bound it would have crossed and stops less than one
    step short of it. *)
Theorem X6_recenterDateAt_reaches_target (ratio : Q) (S : State) :
  1 <= dateStepDays S ->
  dateMin S <= dateStart S -> dateStart S <= dateEnd S -> dateEnd S <= dateMax S ->
  let step := dateStepDays S in
  let r := Qmax 0 (Qmin 1 ratio) in
  let target := (inject_Z (dateMin S) + r * inject_Z (dateMax S - dateMin S))%Q in
  let center := (inject_Z (dateStart S + dateEnd S) / 2)%Q in
  let rounded := Math_round ((target - center) / inject_Z step) * step in
  let lo := minShiftStep (dateMin S) (dateStart S) step in
  let hi := maxShiftStep (dateMax S) (dateEnd S) step in
  let S' := fst (recenterDateAt formatToParts ratio S) in
  let center' := (inject_Z (dateStart S' + dateEnd S') / 2)%Q in
  (inject_Z (dateMin S) <= target <= inject_Z (dateMax S))%Q
  /\ (lo <= rounded <= hi -> (Qabs (center' - target) <= inject_Z step / 2)%Q)
  /\ (rounded < lo ->
      dateStart S' = dateStart S + lo /\ dateMin S <= dateStart S' < dateMin S + step)
  /\ (hi < rounded ->
      dateEnd S' = dateEnd S + hi /\ dateMax S - step < dateEnd S' <= dateMax S).
Proof.
  intros Hs Ha Hab Hb step r target center rounded lo hi S' center'.
  pose proof (minShiftStep_bounds (dateMin S) (dateStart S) step Hs Ha) as Bl.
  pose proof (maxShiftStep_bounds (dateMax S) (dateEnd S) step Hs Hb) as Bh.
  pose proof (minShiftStep_tight (dateMin S) (dateStart S) step Hs) as Tl.
  pose proof (maxShiftStep_tight (dateMax S) (dateEnd S) step Hs) as Th.
  fold lo in Bl, Tl. fold hi in Bh, Th.
  assert (ES : dateStart S' = dateStart S + Z.max lo (Z.min hi rounded)) by reflexivity.
  assert (EE : dateEnd S' = dateEnd S + Z.max lo (Z.min hi rounded)) by reflexivity.
  split; [|split; [|split]].
  - pose proof (unit_ratio ratio) as [R0 R1]. fold r in R0, R1.
    assert (Sp : (0 <= inject_Z (dateMax S - dateMin S))%Q).
    { change 0%Q with (inject_Z 0). rewrite <- Zle_Qle. lia. }
    assert (P1 : (0 <= r * inject_Z (dateMax S - dateMin S))%Q)
      by (apply Qmult_le_0_compat; assumption).
    assert (P2 : (0 <= (1 - r) * inject_Z (dateMax S - dateMin S))%Q)
      by (apply Qmult_le_0_compat; [lra | assumption]).
    unfold target. unfold Zminus in *. rewrite inject_Z_plus, inject_Z_opp in *.
    split; lra.
  - intros Fit.
    assert (Esh : Z.max lo (Z.min hi rounded) = rounded) by lia.
    unfold center'. rewrite ES, EE, Esh.
    pose proof (round_to_step_near (target - center) step Hs) as N. fold rounded in N.
    assert (Q1 : (inject_Z (dateStart S + rounded + (dateEnd S + rounded)) / 2 - target
                  == inject_Z rounded - (target - center))%Q).
    { unfold center. rewrite !inject_Z_plus. field. }
    rewrite Q1. exact N.
  - intros Low. rewrite ES. replace (Z.max lo (Z.min hi rounded)) with lo by lia.
    split; [reflexivity | lia].
  - intros High. rewrite EE. replace (Z.max lo (Z.min hi rounded)) with hi by lia.
    split; [reflexivity | lia].
Qed.

End Recenter.

(** ** Texts and their parsers *)

(** A check that evaluates to [true] on 0 .. n-1 holds on that range. *)
Lemma checked_below (P : Z -> bool) (n : Z) :
  forallb P (map Z.of_nat (seq 0 (Z.to_nat n))) = true ->
  forall m, 0 <= m < n -> P m = true.
Proof.
  intros H m Hm. rewrite forallb_forall in H. apply H.
  apply in_map_iff. exists (Z.to_nat m). split; [lia|].
  apply in_seq. lia.
Qed.

Lemma same_result_eq (a b : option Z) : same_result a b = true -> a = b.
Proof.
  destruct a, b; cbn; intros H; try discriminate; [|reflexivity].
  apply Z.eqb_eq in H. now subst.
Qed.

(** X8: the text [#fmtHHMMSS] writes into a time field is read back by
    [parseTime] as the same minute for every minute 0..1439; for 1440 up to
    5999 (hours 24..99) the text is well-formed but rejected, so a
    selection that was snapped to 1440 shows a time the component's own
    parser refuses. *)
Theorem X8_time_text_round_trip (m : Z) :
  0 <= m <= 5999 ->
  parseTime (fmtHHMMSS m) = if m <=? 1439 then Some m else None.
Proof.
  intros Hm. apply same_result_eq.
  apply (checked_below time_text_checked 6000); [vm_compute; reflexivity | lia].
Qed.

Lemma four_digits_years (y : Z) : 1000 <= y <= 9999 -> four_digits_checked y = true.
Proof.
  intros Hy. replace y with (y - 1000 + 1000) by lia.
  apply (checked_below (fun k => four_digits_checked (k + 1000)) 9000);
    [vm_compute; reflexivity | lia].
Qed.

Lemma two_digits_fields (n : Z) : 0 <= n <= 99 -> two_digits_checked n = true.
Proof.
  intros Hn. apply (checked_below two_digits_checked 100); [vm_compute; reflexivity | lia].
Qed.

(** The text of a date with a four-digit year splits into its own fields. *)
Lemma date_fields_of_text (d : JSDate) :
  1000 <= getFullYear d <= 9999 ->
  date_fields (fmtDateISO d) = Some (getFullYear d, getMonth d + 1, getDate d).
Proof.
  intros Hy.
  pose proof (four_digits_years _ Hy) as Cy.
  pose proof (MonthFromDay_range d) as Rm.
  pose proof (DateFromDay_range d) as Rd.
  pose proof (two_digits_fields (getMonth d + 1) ltac:(unfold getMonth; lia)) as Cm.
  pose proof (two_digits_fields (getDate d) ltac:(unfold getDate; lia)) as Cd.
  unfold fmtDateISO, four_digits_checked, two_digits_checked in *.
  destruct (String_of (getFullYear d)) as [|y1 [|y2 [|y3 [|y4 [|]]]]]; try discriminate.
  destruct (pad2 (getMonth d + 1)) as [|m1 [|m2 [|]]]; try discriminate.
  destruct (pad2 (getDate d)) as [|d1 [|d2 [|]]]; try discriminate.
  apply andb_prop in Cy. destruct Cy as [Dy Ny].
  apply andb_prop in Cm. destruct Cm as [Dm Nm]. apply andb_prop in Dm. destruct Dm as [Dm1 Dm2].
  apply andb_prop in Cd. destruct Cd as [Dd Nd]. apply andb_prop in Dd. destruct Dd as [Dd1 Dd2].
  cbn [forallb] in Dy.
  apply andb_prop in Dy. destruct Dy as [Dy1 Dy].
  apply andb_prop in Dy. destruct Dy as [Dy2 Dy].
  apply andb_prop in Dy. destruct Dy as [Dy3 Dy].
  apply andb_prop in Dy. destruct Dy as [Dy4 _].
  apply Z.eqb_eq in Ny, Nm, Nd.
  unfold date_fields.
  cbn [String.append list_ascii_of_string forallb].
  rewrite Dy1, Dy2, Dy3, Dy4, Dm1, Dm2, Dd1, Dd2.
  cbn [andb Ascii.eqb Bool.eqb].
  rewrite Ny, Nm, Nd. reflexivity.
Qed.

(** X9: the text [#fmtDateISO] writes for a date whose year has four
    digits (1000..9999) is accepted by [#coerceDateOnly] and read back as
    the same date. *)
Theorem X9_date_text_round_trip (d : JSDate) :
  1000 <= getFullYear d <= 9999 ->
  coerceDateOnly (VString (fmtDateISO d)) = Some d.
Proof.
  intros Hy. unfold coerceDateOnly. rewrite (date_fields_of_text d Hy).
  replace (getMonth d + 1 - 1) with (getMonth d) by lia.
  rewrite newDate_fields; [reflexivity|].
  unfold two_digit_year. lia.
Qed.

(** ** Ticks *)

Lemma stepsUpTo_next (i step hi : Z) :
  1 <= step -> i <= hi ->
  stepsUpTo i step hi = i :: stepsUpTo (i + step) step hi.
Proof.
  intros Hs Hi. unfold stepsUpTo.
  destruct (Z.leb_spec i hi) as [_|]; [|lia].
  assert (N : Z.to_nat ((hi - i) / step + 1)
              = Datatypes.S (Z.to_nat (if i + step <=? hi
                                       then (hi - (i + step)) / step + 1 else 0))).
  { destruct (Z.leb_spec (i + step) hi).
    - replace (hi - i) with (hi - (i + step) + 1 * step) by lia.
      rewrite Z.div_add by lia.
      assert (0 <= (hi - (i + step)) / step) by (apply Z.div_pos; lia). lia.
    - rewrite Z.div_small by lia. reflexivity. }
  rewrite N. cbn [seq map]. f_equal; [lia|].
  rewrite <- seq_shift, map_map. apply map_ext. intros k. lia.
Qed.

Lemma stepsUpTo_done (i step hi : Z) : hi < i -> stepsUpTo i step hi = [].
Proof.
  intros Hi. unfold stepsUpTo. destruct (Z.leb_spec i hi); [lia | reflexivity].
Qed.

Lemma stepsUpTo_length (i step hi : Z) :
  1 <= step -> 0 <= i ->
  Z.of_nat (List.length (stepsUpTo i step hi)) <= Z.max 0 (hi + 1).
Proof.
  intros Hs Hi. unfold stepsUpTo. rewrite List.length_map, List.length_seq.
  destruct (Z.leb_spec i hi); [|lia].
  assert (0 <= (hi - i) / step) by (apply Z.div_pos; lia).
  assert ((hi - i) / step <= hi - i) by (apply Z.div_le_upper_bound; nia).
  lia.
Qed.

(** X10: for every target, [#chooseTimeTickStep] returns one of the
    candidates 15, 30, 60, 120, 180, 240, none of which is closer to the
    target in |1440 / candidate - target|; whichever it returns divides the
    1440 minutes of the day. *)
Theorem X10_time_tick_step_minimizes (target : Z) :
  In (chooseTimeTickStep target) timeTickCandidates
  /\ (forall c, In c timeTickCandidates ->
        (tickDiff 1440 target (chooseTimeTickStep target) <= tickDiff 1440 target c)%Q)
  /\ (chooseTimeTickStep target | 1440).
Proof.
  assert (G : forall r, r = fold_left (keepCloser 1440 target) timeTickCandidates
                              (15, tickDiff 1440 target 15) ->
                        In (fst r) timeTickCandidates
                        /\ (forall c, In c timeTickCandidates ->
                              (tickDiff 1440 target (fst r) <= tickDiff 1440 target c)%Q)).
  { intros r Hr.
    destruct (keepCloser_fold 1440 target timeTickCandidates
                (15, tickDiff 1440 target 15) eq_refl r Hr) as (_ & M & _ & A).
    split; [|exact A].
    destruct M as [M | M]; [|exact M].
    rewrite M. left. reflexivity. }
  destruct (G _ eq_refl) as [G1 G2].
  change (fst (fold_left (keepCloser 1440 target) timeTickCandidates
                 (15, tickDiff 1440 target 15)))
    with (chooseTimeTickStep target) in G1, G2.
  split; [exact G1|]. split; [exact G2|].
  destruct G1 as [<- | [<- | [<- | [<- | [<- | [<- | []]]]]]].
  - exists 96; reflexivity.
  - exists 48; reflexivity.
  - exists 24; reflexivity.
  - exists 12; reflexivity.
  - exists 8; reflexivity.
  - exists 6; reflexivity.
Qed.

Lemma timeTicksFrom_steps (stepMins : Z) (fuel : nat) :
  forall m,
  1 <= stepMins ->
  (List.length (stepsUpTo m stepMins 1439) <= fuel)%nat ->
  timeTicksFrom fuel m stepMins = map (timeTick stepMins) (stepsUpTo m stepMins 1439).
Proof.
  induction fuel as [|fuel IH]; intros m Hs Hf; cbn [timeTicksFrom].
  - destruct (stepsUpTo m stepMins 1439); [reflexivity | cbn in Hf; lia].
  - destruct (Z.ltb_spec m 1440).
    + rewrite stepsUpTo_next in * by lia. cbn [map List.length] in *.
      f_equal. apply IH; [assumption | lia].
    + rewrite stepsUpTo_done by lia. reflexivity.
Qed.

Lemma tick_label_day (m : Z) : 0 <= m < 1440 -> tick_label_checked m = true.
Proof.
  intros Hm. apply (checked_below tick_label_checked 1440); [vm_compute; reflexivity | lia].
Qed.

Lemma timeTick_sound (stepMins m : Z) : 0 <= m < 1440 -> timeTickSound (timeTick stepMins m).
Proof.
  intros Hm. unfold timeTickSound, timeTick.
  cbn [tick_at tick_pct tick_strong tick_label].
  assert (Ep : (JS.div m (1440 - 1) == inject_Z m / 1439)%Q) by reflexivity.
  split; [lia|]. split; [exact Ep|]. split; [|split; [|split]].
  - change (1440 - 1) with (Zpos 1439). rewrite div_as_fraction.
    unfold Qle; cbn [Qnum Qden]. lia.
  - unfold JS.rem. rewrite Z.eqb_eq. apply Z.rem_divide. lia.
  - intros ->. cbn [orb]. discriminate.
  - intros text.
    pose proof (same_result_eq _ _ (tick_label_day m Hm)) as L.
    destruct (_ || _); [|discriminate].
    intros E. injection E as <-. exact L.
Qed.

Lemma stepsUpTo_range (step hi i v : Z) :
  1 <= step -> 0 <= i ->
  In v (stepsUpTo i step hi) -> i <= v <= hi /\ (step | v - i).
Proof.
  intros Hs Hi Hin. unfold stepsUpTo in Hin.
  apply in_map_iff in Hin. destruct Hin as (n & <- & Hn).
  apply in_seq in Hn.
  destruct (Z.leb_spec i hi); [|cbn in Hn; lia].
  assert (0 <= (hi - i) / step) by (apply Z.div_pos; lia).
  assert (Z.of_nat n <= (hi - i) / step) by lia.
  assert (step * ((hi - i) / step) <= hi - i) by (apply Z.mul_div_le; lia).
  split; [nia|]. exists (Z.of_nat n). lia.
Qed.

(** X11: for every step of at least one minute the loop of
    [#buildTimeTicks] ends by its own test and draws exactly the ticks at
    0, step, 2 step, ... below 1440 (1439 / step + 1 of them; with the
    component's own step of 180 minutes, the eight ticks 0, 180, ..., 1260).
    Every tick
    lies on the track (position minute / 1439 within 0..1), is strong
    exactly on the whole hours, is labelled when strong, and its label read
    by [parseTime] is the minute it stands at. *)
Theorem X11_time_ticks (stepMins : Z) (fuel : nat) :
  1 <= stepMins -> (1440 <= fuel)%nat ->
  timeTicksFrom fuel 0 stepMins
  = map (timeTick stepMins) (stepsUpTo 0 stepMins 1439)
  /\ List.length (timeTicksFrom fuel 0 stepMins) = Z.to_nat (1439 / stepMins + 1)
  /\ Forall timeTickSound (timeTicksFrom fuel 0 stepMins)
  /\ map tick_at buildTimeTicks = [0; 180; 360; 540; 720; 900; 1080; 1260].
Proof.
  intros Hs Hf.
  cut (timeTicksFrom fuel 0 stepMins
       = map (timeTick stepMins) (stepsUpTo 0 stepMins 1439)
       /\ List.length (timeTicksFrom fuel 0 stepMins) = Z.to_nat (1439 / stepMins + 1)
       /\ Forall timeTickSound (timeTicksFrom fuel 0 stepMins)).
  { intros (A & B & C). split; [exact A|]. split; [exact B|]. split; [exact C|].
    vm_compute. reflexivity. }
  assert (E : timeTicksFrom fuel 0 stepMins
              = map (timeTick stepMins) (stepsUpTo 0 stepMins 1439)).
  { apply timeTicksFrom_steps; [assumption|].
    pose proof (stepsUpTo_length 0 stepMins 1439 Hs ltac:(lia)). lia. }
  split; [exact E|]. rewrite E. split.
  - rewrite List.length_map. unfold stepsUpTo.
    rewrite List.length_map, List.length_seq. cbn [Z.leb Z.compare].
    now rewrite Z.sub_0_r.
  - apply Forall_map. apply Forall_forall. intros v Hin.
    apply timeTick_sound.
    pose proof (stepsUpTo_range stepMins 1439 0 v Hs ltac:(lia) Hin). lia.
Qed.

Lemma dateTicksFrom_steps (minD : JSDate) (totalDays stepDays : Z) (fuel : nat) :
  forall i,
  1 <= stepDays ->
  (List.length (stepsUpTo i stepDays totalDays) <= fuel)%nat ->
  dateTicksFrom fuel i totalDays stepDays minD
  = map (dateTick minD totalDays stepDays) (stepsUpTo i stepDays totalDays).
Proof.
  induction fuel as [|fuel IH]; intros i Hs Hf; cbn [dateTicksFrom].
  - destruct (stepsUpTo i stepDays totalDays); [reflexivity | cbn in Hf; lia].
  - destruct (Z.leb_spec i totalDays).
    + rewrite stepsUpTo_next in * by lia. cbn [map List.length] in *.
      f_equal. apply IH; [assumption | lia].
    + rewrite stepsUpTo_done by lia. reflexivity.
Qed.

Lemma chooseDateTickStep_candidate (totalDays target : Z) :
  In (chooseDateTickStep totalDays target) dateTickCandidates.
Proof.
  assert (G : forall r, r = fold_left (keepCloser totalDays target) dateTickCandidates
                              (1, tickDiff totalDays target 1) ->
                        In (fst r) dateTickCandidates).
  { intros r Hr.
    destruct (keepCloser_fold totalDays target dateTickCandidates
                (1, tickDiff totalDays target 1) eq_refl r Hr) as (_ & M & _).
    destruct M as [M | M]; [|exact M].
    rewrite M. left. reflexivity. }
  exact (G _ eq_refl).
Qed.

Lemma chooseDateTickStep_range (totalDays target : Z) :
  1 <= chooseDateTickStep totalDays target <= 365.
Proof.
  pose proof (chooseDateTickStep_candidate totalDays target) as H.
  unfold dateTickCandidates in H. cbn [In] in H.
  repeat (destruct H as [<- | H]; [lia|]). contradiction.
Qed.

(** X12: [#buildDateTicks] ends by its own test and draws exactly the
    ticks at the indexes 0, step, 2 step, ... up to totalDays inclusive
    (totalDays / step + 1 of them), with totalDays = max(1, dateMax -
    dateMin) and the step chosen for it, which is at least 1.  The tick at
    index i lies at i / totalDays within 0..1, is for the day minDate + i,
    carries that day's label, and is strong exactly when the step is at
    least 30 or the day is the first of its month. *)
Theorem X12_date_ticks (S : State) :
  let totalDays := Z.max 1 (dateMax S - dateMin S) in
  let stepDays := chooseDateTickStep totalDays DATE_TICK_TARGET in
  1 <= stepDays
  /\ buildDateTicks S
     = map (dateTick (minDate S) totalDays stepDays) (stepsUpTo 0 stepDays totalDays)
  /\ List.length (buildDateTicks S) = Z.to_nat (totalDays / stepDays + 1)
  /\ (forall t, In t (buildDateTicks S) ->
        0 <= tick_at t <= totalDays
        /\ (stepDays | tick_at t)
        /\ (0 <= tick_pct t <= 1)%Q
        /\ tick_label t
           = Some (formatDateTickLabel (idxToDate S (tick_at t)) stepDays)
        /\ idxToDate S (tick_at t) = minDate S + tick_at t
        /\ (tick_strong t = true
            <-> 30 <= stepDays \/ getDate (idxToDate S (tick_at t)) = 1)).
Proof.
  intros totalDays stepDays.
  pose proof (chooseDateTickStep_range totalDays DATE_TICK_TARGET) as Rs.
  fold stepDays in Rs.
  assert (Ht : 1 <= totalDays) by (unfold totalDays; lia).
  assert (E : buildDateTicks S
              = map (dateTick (minDate S) totalDays stepDays)
                    (stepsUpTo 0 stepDays totalDays)).
  { unfold buildDateTicks. fold totalDays stepDays.
    apply dateTicksFrom_steps; [lia|].
    pose proof (stepsUpTo_length 0 stepDays totalDays ltac:(lia) ltac:(lia)). lia. }
  split; [lia|]. split; [exact E|]. rewrite E. split.
  - rewrite List.length_map. unfold stepsUpTo.
    rewrite List.length_map, List.length_seq.
    destruct (Z.leb_spec 0 totalDays); [|lia]. now rewrite Z.sub_0_r.
  - intros t Hin. apply in_map_iff in Hin. destruct Hin as (i & <- & Hi).
    pose proof (stepsUpTo_range stepDays totalDays 0 i ltac:(lia) ltac:(lia) Hi)
      as [Ri Di].
    rewrite Z.sub_0_r in Di.
    unfold dateTick. cbn [tick_at tick_pct tick_strong tick_label].
    split; [lia|]. split; [exact Di|]. split; [|split; [|split]].
    + destruct totalDays as [|p|p]; try lia.
      rewrite div_as_fraction. unfold Qle; cbn [Qnum Qden]. lia.
    + reflexivity.
    + apply idxToDate_shift.
    + unfold isMonthStart. fold (idxToDate S i).
      rewrite orb_true_iff, Z.eqb_eq, Z.geb_le. reflexivity.
Qed.

(** ** What every handler keeps *)

Lemma clampAndSyncDates_inv (S : State) :
  frameInv S -> 0 <= timeStart S /\ 0 <= timeEnd S ->
  stateInv (clampAndSyncDates S).
Proof.
  intros F T. rewrite clampAndSyncDates_ordered.
  destruct F as (Dm & F).
  pose proof (snapToStep_nonneg (clamp (dateMin S) (dateMax S) (dateStart S))
                (dateStepDays S) ltac:(lia) ltac:(unfold clamp; lia)).
  pose proof (snapToStep_nonneg (clamp (dateMin S) (dateMax S) (dateEnd S))
                (dateStepDays S) ltac:(lia) ltac:(unfold clamp; lia)).
  unfold stateInv, frameInv.
  cbn [with_dates dateMin timeMin timeMax dateStepDays timeStep timeZone
       dateStart dateEnd timeStart timeEnd].
  repeat split; try tauto; lia.
Qed.

Lemma clampAndSyncTimes_inv (S : State) :
  frameInv S -> 0 <= dateStart S /\ dateStart S <= dateEnd S ->
  stateInv (clampAndSyncTimes S).
Proof.
  intros F D. destruct F as (Dm & Tm & F).
  pose proof (snapToStep_nonneg (clamp (timeMin S) (timeMax S) (timeStart S))
                (timeStep S) ltac:(lia) ltac:(unfold clamp; lia)).
  pose proof (snapToStep_nonneg (clamp (timeMin S) (timeMax S) (timeEnd S))
                (timeStep S) ltac:(lia) ltac:(unfold clamp; lia)).
  unfold stateInv, frameInv, clampAndSyncTimes.
  cbn [with_times dateMin timeMin timeMax dateStepDays timeStep timeZone
       dateStart dateEnd timeStart timeEnd].
  repeat split; try tauto; lia.
Qed.

Lemma with_dates_frame (S : State) (s e : Z) : frameInv S -> frameInv (with_dates S s e).
Proof. intros F. exact F. Qed.

Lemma with_times_frame (S : State) (s e : Z) : frameInv S -> frameInv (with_times S s e).
Proof. intros F. exact F. Qed.

Lemma with_timeZone_inv (S : State) (c : ascii) (rest : string) :
  stateInv S -> stateInv (with_timeZone S (String c rest)).
Proof.
  intros ((Dm & Tm & Tx & Ds & Ts & _) & D & T).
  unfold stateInv, frameInv.
  cbn [with_timeZone dateMin timeMin timeMax dateStepDays timeStep timeZone
       dateStart dateEnd timeStart timeEnd].
  repeat split; try tauto; try lia. discriminate.
Qed.

Section AllActions.

Variable hostOffsetMs : Z -> Z.
Variable formatToParts : string -> Z -> option DateParts.
Variable parseInt10 : string -> option Z.

Lemma stepOfAttribute_floor (fallbackText : string) (fallback : Z) (newVal : option string) :
  1 <= stepOfAttribute parseInt10 fallbackText fallback newVal.
Proof. unfold stepOfAttribute. lia. Qed.

Lemma zoneOfAttribute_inv (newVal : option string) (S : State) :
  stateInv S -> stateInv (zoneOfAttribute newVal S).
Proof.
  intros I. unfold zoneOfAttribute.
  destruct newVal as [[|c rest]|]; try exact I. now apply with_timeZone_inv.
Qed.

Lemma onPointerMove_inv (g : Gesture) (dx dy : Q) (S : State) :
  (dateGestureInv g S ->
   dateGestureInv (fst (fst (onPointerMove formatToParts g dx dy S)))
                  (snd (fst (onPointerMove formatToParts g dx dy S))))
  /\ (timeGestureInv g S ->
      timeGestureInv (fst (fst (onPointerMove formatToParts g dx dy S)))
                     (snd (fst (onPointerMove formatToParts g dx dy S)))).
Proof.
  split.
  - intros (K & Em & Es & Ha & Hab & I). unfold onPointerMove. rewrite K.
    destruct (g_dragged g || Qlt_bool 36 (dx * dx + dy * dy)); cbn [negb fst snd].
    + unfold dateGestureInv. cbn [g_isDate g_init].
      repeat (split; [first [assumption | reflexivity]|]).
      destruct I as (F & _ & T).
      pose proof (minShiftStep_tight (sn_min (g_init g)) (sn_a (g_init g))
                    (sn_step (g_init g)) Es) as Tl.
      set (shift := clampShift _ _ _ _ _ _).
      assert (Hsh : sn_min (g_init g) - sn_a (g_init g) <= shift)
        by (unfold shift, clampShift; lia).
      split; [exact F|]. cbn [with_dates dateStart dateEnd timeStart timeEnd].
      split; [lia | exact T].
    + unfold dateGestureInv. cbn [g_isDate g_init].
      repeat (split; [first [assumption | reflexivity]|]). exact I.
  - intros (K & I). unfold onPointerMove. rewrite K.
    destruct (g_dragged g || Qlt_bool 36 (dx * dx + dy * dy)); cbn [negb fst snd].
    + split; [reflexivity|]. destruct I as (F & D & _).
      split; [exact F|]. cbn [with_times dateStart dateEnd timeStart timeEnd].
      split; [exact D|].
      pose proof (wrap_in_day (sn_a (g_init g)
                               + steppedShift (if Qeq_bool (g_width g) 0 then 0
                                               else dx / g_width g)
                                   (sn_span (g_init g) + 1) (sn_step (g_init g)))).
      pose proof (wrap_in_day (sn_b (g_init g)
                               + steppedShift (if Qeq_bool (g_width g) 0 then 0
                                               else dx / g_width g)
                                   (sn_span (g_init g) + 1) (sn_step (g_init g)))).
      lia.
    + split; [reflexivity | exact I].
Qed.

Lemma dragMoves_inv (moves : list (Q * Q)) :
  forall (g : Gesture) (S : State),
  (dateGestureInv g S ->
   dateGestureInv (fst (dragMoves formatToParts g S moves))
                  (snd (dragMoves formatToParts g S moves)))
  /\ (timeGestureInv g S ->
      timeGestureInv (fst (dragMoves formatToParts g S moves))
                     (snd (dragMoves formatToParts g S moves))).
Proof.
  induction moves as [|[dx dy] rest IH]; intros g S; cbn [dragMoves].
  - split; intros I; exact I.
  - pose proof (onPointerMove_inv g dx dy S) as [Md Mt].
    destruct (onPointerMove formatToParts g dx dy S) as [[g' S'] o]. cbn [fst snd] in *.
    destruct (IH g' S') as [Id It]. split; intros I; auto.
Qed.

Lemma recenterDateAt_inv (ratio : Q) (S : State) :
  stateInv S -> stateInv (fst (recenterDateAt formatToParts ratio S)).
Proof.
  intros (F & D & T). unfold recenterDateAt. cbn [fst].
  set (shift := clampShift _ _ _ _ _ _).
  pose proof F as (Dm & _ & _ & Ds & _).
  pose proof (minShiftStep_tight (dateMin S) (dateStart S) (dateStepDays S) Ds) as Tl.
  assert (Hsh : dateMin S - dateStart S <= shift) by (unfold shift, clampShift; lia).
  split; [exact F|]. cbn [with_dates dateStart dateEnd timeStart timeEnd].
  split; [lia | exact T].
Qed.

Lemma recenterTimeAt_inv (ratio : Q) (S : State) :
  stateInv S -> stateInv (fst (recenterTimeAt formatToParts ratio S)).
Proof.
  intros (F & D & T). unfold recenterTimeAt. cbn [fst].
  split; [exact F|]. cbn [with_times dateStart dateEnd timeStart timeEnd].
  split; [exact D|].
  split; apply wrap_in_day.
Qed.

Lemma runGesture_inv (isDate : bool) (rectWidth : Q) (moves : list (Q * Q))
    (left width clientX : Q) (S : State) :
  stateInv S ->
  stateInv (runGesture formatToParts isDate rectWidth moves left width clientX S).
Proof.
  intros I. unfold runGesture.
  pose proof (dragMoves_inv moves (onPointerDown isDate rectWidth S) S) as [Gd Gt].
  destruct isDate.
  - assert (G0 : dateGestureInv (onPointerDown true rectWidth S) S).
    { destruct I as ((Dm & F) & D & T).
      unfold dateGestureInv, onPointerDown, snapshotOf.
      cbn [g_isDate g_init sn_min sn_step sn_a sn_b].
      repeat split; try tauto; lia. }
    specialize (Gd G0).
    destruct (dragMoves formatToParts (onPointerDown true rectWidth S) S moves) as [g S1].
    cbn [fst snd] in *. destruct Gd as (K & _ & _ & _ & _ & I1).
    unfold onPointerUp. rewrite K.
    destruct (g_dragged g); cbn [negb fst]; [exact I1|].
    pose proof (recenterDateAt_inv
                  (if Qeq_bool width 0 then 1 # 2
                   else (Qmin (left + width) (Qmax left clientX) - left) / width) S1 I1).
    destruct (recenterDateAt formatToParts _ S1) as [S2 o]. assumption.
  - assert (G0 : timeGestureInv (onPointerDown false rectWidth S) S)
      by (split; [reflexivity | exact I]).
    specialize (Gt G0).
    destruct (dragMoves formatToParts (onPointerDown false rectWidth S) S moves) as [g S1].
    cbn [fst snd] in *. destruct Gt as (K & I1).
    unfold onPointerUp. rewrite K.
    destruct (g_dragged g); cbn [negb fst]; [exact I1|].
    pose proof (recenterTimeAt_inv
                  (if Qeq_bool width 0 then 1 # 2
                   else (Qmin (left + width) (Qmax left clientX) - left) / width) S1 I1).
    destruct (recenterTimeAt formatToParts _ S1) as [S2 o]. assumption.
Qed.

Lemma initDateBounds_frame (attrMin attrMax : DateInput) (now : JSDate) (S : State) :
  frameInv S -> frameInv (initDateBounds hostOffsetMs attrMin attrMax now S).
Proof.
  intros (_ & F). unfold initDateBounds.
  destruct (match coerceDateOnly attrMin with
            | Some a => _ | None => _ end) as [minD maxD].
  split; [reflexivity | exact F].
Qed.

Lemma act_inv (a : Action) (S : State) :
  stateInv S -> stateInv (act hostOffsetMs formatToParts parseInt10 a S).
Proof.
  intros I. pose proof I as (F & D & T).
  destruct a; cbn [act].
  - unfold set_dateRange.
    destruct (coerceDateOnly vstart); [|exact I].
    destruct (coerceDateOnly vend); [|exact I].
    cbn [fst]. apply clampAndSyncDates_inv; [exact F | exact T].
  - unfold set_timeRange. cbn [fst]. apply clampAndSyncTimes_inv; [exact F | exact D].
  - unfold set_timeZone. destruct v as [|c rest]; [exact I|].
    cbn [fst]. now apply with_timeZone_inv.
  - unfold onDateStartInput. destruct (coerceDateOnly _); [|exact I].
    cbn [fst]. apply clampAndSyncDates_inv; [exact F | exact T].
  - unfold onDateEndInput. destruct (coerceDateOnly _); [|exact I].
    cbn [fst]. apply clampAndSyncDates_inv; [exact F | exact T].
  - unfold onDateThumb. cbn [fst]. apply clampAndSyncDates_inv; [exact F | exact T].
  - unfold onTimeStartInput. destruct (parseTime value); [|exact I].
    cbn [fst]. apply clampAndSyncTimes_inv; [exact F | exact D].
  - unfold onTimeEndInput. destruct (parseTime value); [|exact I].
    cbn [fst]. apply clampAndSyncTimes_inv; [exact F | exact D].
  - unfold onTimeThumb. cbn [fst]. apply clampAndSyncTimes_inv; [exact F | exact D].
  - unfold onTZInput. destruct val as [|c rest]; [exact I|].
    destruct (isValidTimeZone _ _ _); [|exact I].
    cbn [commitTZ fst]. now apply with_timeZone_inv.
  - unfold onTZChange. destruct val as [|c rest]; [exact I|].
    destruct (isValidTimeZone _ _ _); [|exact I].
    cbn [commitTZ fst]. now apply with_timeZone_inv.
  - now apply runGesture_inv.
  - unfold attributeChangedCallback.
    destruct (sameValue oldVal newVal); [exact I|]. cbn [negb].
    destruct name; cbn [fst].
    + apply clampAndSyncDates_inv; [now apply initDateBounds_frame|].
      unfold initDateBounds.
      destruct (match coerceDateOnly _ with Some a => _ | None => _ end) as [minD maxD].
      exact T.
    + apply clampAndSyncDates_inv; [now apply initDateBounds_frame|].
      unfold initDateBounds.
      destruct (match coerceDateOnly _ with Some a => _ | None => _ end) as [minD maxD].
      exact T.
    + pose proof (stepOfAttribute_floor "15" 15 newVal).
      destruct F as (? & ? & ? & ? & ? & ?).
      unfold stateInv, frameInv.
      cbn [with_timeStep dateMin timeMin timeMax dateStepDays timeStep timeZone
           dateStart dateEnd timeStart timeEnd].
      repeat split; try tauto; lia.
    + pose proof (stepOfAttribute_floor "1" 1 newVal).
      destruct F as (? & ? & ? & ? & ? & ?).
      unfold stateInv, frameInv.
      cbn [with_dateStepDays dateMin timeMin timeMax dateStepDays timeStep timeZone
           dateStart dateEnd timeStart timeEnd].
      repeat split; try tauto; lia.
    + now apply zoneOfAttribute_inv.
Qed.

(** X14: whatever happens to a connected component (the three public
    setters, typing into the date, time and zone fields, moving the
    thumbs, a drag or click on either track, a change of any observed
    attribute), in any order, the state keeps dateMin = 0, timeMin = 0,
    timeMax = 1439, both steps at least 1, a date selection with
    0 <= dateStart <= dateEnd, both times at least 0, and a zone that is
    not the empty string. *)
Theorem X14_every_action_keeps_the_invariant (actions : list Action) (S : State) :
  stateInv S ->
  stateInv (fold_left (fun S' a => act hostOffsetMs formatToParts parseInt10 a S')
                      actions S).
Proof.
  revert S. induction actions as [|a rest IH]; intros S I; cbn [fold_left].
  - exact I.
  - apply IH. now apply act_inv.
Qed.

End AllActions.

(** ** The state a component starts in *)

Section Connecting.

Variable hostOffsetMs : Z -> Z.
Variable formatToParts : string -> Z -> option DateParts.
Variable parseInt10 : string -> option Z.

Hypothesis hostOffset_steady :
  forall m n, 2 * Z.abs (hostOffsetMs m - hostOffsetMs n) < msPerDay.

(** What the attribute changes before the template is attached keep. *)
Lemma early_changes_keep (early : list (AttrName * option string * option string))
    (now : JSDate) :
  forall S,
  (timeMin S = 0 /\ timeMax S = 1439 /\ 1 <= dateStepDays S /\ 1 <= timeStep S
   /\ timeStart S = 1320 /\ timeEnd S = 360) ->
  let S' := fold_left
              (fun S c => fst (attributeChangedCallback hostOffsetMs formatToParts parseInt10
                                 false noAttrs (fst (fst c)) (snd (fst c)) (snd c) now S))
              early S in
  timeMin S' = 0 /\ timeMax S' = 1439 /\ 1 <= dateStepDays S' /\ 1 <= timeStep S'
  /\ timeStart S' = 1320 /\ timeEnd S' = 360.
Proof.
  induction early as [|[[name oldVal] newVal] rest IH]; intros S P; cbn [fold_left].
  - exact P.
  - apply IH. cbn [fst snd]. unfold attributeChangedCallback.
    destruct (sameValue oldVal newVal); [exact P|]. cbn [negb].
    destruct P as (P1 & P2 & P3 & P4 & P5 & P6).
    destruct name; cbn [fst]; try (repeat split; assumption).
    + pose proof (stepOfAttribute_floor parseInt10 "15" 15 newVal).
      cbn [with_timeStep timeMin timeMax dateStepDays timeStep timeStart timeEnd].
      repeat split; assumption.
    + pose proof (stepOfAttribute_floor parseInt10 "1" 1 newVal).
      cbn [with_dateStepDays timeMin timeMax dateStepDays timeStep timeStart timeEnd].
      repeat split; assumption.
    + unfold zoneOfAttribute. destruct newVal as [[|c r]|]; repeat split; assumption.
Qed.

Lemma initDateBounds_ordered (attrMin attrMax : DateInput) (now : JSDate) (S : State) :
  let S' := initDateBounds hostOffsetMs attrMin attrMax now S in
  minDate S' <= maxDate S'
  /\ dateMax S' = daysBetween hostOffsetMs (minDate S') (maxDate S').
Proof using hostOffset_steady.
  unfold initDateBounds.
  assert (Fb : setDate (todayLocal now) (getDate (todayLocal now) - 30) <= todayLocal now)
    by (rewrite setDate_shift; lia).
  destruct (coerceDateOnly attrMin) as [a|], (coerceDateOnly attrMax) as [b|];
    cbn [with_bounds minDate maxDate dateMax]; try (split; [exact Fb | reflexivity]).
  destruct (Z.gtb_spec (getTime hostOffsetMs a) (getTime hostOffsetMs b));
    cbn [with_bounds minDate maxDate dateMax]; split; try reflexivity; try exact Fb.
  apply getTime_le_iff with (hostOffsetMs := hostOffsetMs); [exact hostOffset_steady | lia].
Qed.

(** X15: a component that connects starts with the whole date span
    selected (dateStart = 0, dateEnd = dateMax), the times 22:00 and 06:00
    of the state literal, both steps at least 1 and a zone that is not
    empty (the default-tz attribute, else the host's zone, else "UTC"),
    whatever attributes were set before or at connection.  When neither
    date bound falls in the years 0..99, dateMax is the number of days
    from minDate to maxDate, which is not negative, and the state satisfies
    the invariant every later action keeps. *)
Theorem X15_state_at_connect
    (early : list (AttrName * option string * option string))
    (attrs : Attrs) (sysTZ : string) (now : JSDate) :
  let S := stateAtConnect hostOffsetMs formatToParts parseInt10 early attrs sysTZ now in
  frameInv S
  /\ dateStart S = 0 /\ dateEnd S = dateMax S
  /\ timeStart S = 1320 /\ timeEnd S = 360
  /\ (two_digit_year (getFullYear (minDate S)) = false ->
      two_digit_year (getFullYear (maxDate S)) = false ->
      dateMax S = maxDate S - minDate S /\ 0 <= dateMax S /\ stateInv S).
Proof using hostOffset_steady.
  intros S. subst S. unfold stateAtConnect.
  pose proof (early_changes_keep early now (initialState 0 0)
                ltac:(cbn; repeat split; lia)) as P.
  cbv zeta in P.
  set (S0 := fold_left _ early (initialState 0 0)) in *.
  destruct P as (P1 & P2 & P3 & P4 & P5 & P6).
  unfold initDefaults.
  set (tz := match attr_defaultTz attrs with
             | Some (String c rest) => String c rest
             | _ => match sysTZ with
                    | String c rest => String c rest
                    | EmptyString => "UTC"%string
                    end
             end).
  assert (Htz : tz <> EmptyString).
  { unfold tz. destruct (attr_defaultTz attrs) as [[|c r]|]; try discriminate;
      destruct sysTZ; discriminate. }
  pose proof (initDateBounds_ordered (attrInput (attr_minDate attrs))
                (attrInput (attr_maxDate attrs)) now (with_timeZone S0 tz)) as [Ord Edm].
  set (S1 := initDateBounds hostOffsetMs _ _ now (with_timeZone S0 tz)) in *.
  assert (K : dateMin S1 = 0 /\ timeMin S1 = 0 /\ timeMax S1 = 1439
              /\ dateStepDays S1 = dateStepDays S0 /\ timeStep S1 = timeStep S0
              /\ timeStart S1 = 1320 /\ timeEnd S1 = 360 /\ timeZone S1 = tz).
  { unfold S1, initDateBounds.
    destruct (match coerceDateOnly _ with Some a => _ | None => _ end) as [minD maxD].
    cbn. repeat split; assumption. }
  destruct K as (K1 & K2 & K3 & K4 & K5 & K6 & K7 & K8).
  assert (G : forall S2,
             S2 = with_dates S1 (dateMin S1) (dateMax S1) \/
             (exists n, 1 <= n /\ S2 = with_timeStep (with_dates S1 (dateMin S1) (dateMax S1)) n) ->
             forall S3,
             S3 = S2 \/ (exists n, 1 <= n /\ S3 = with_dateStepDays S2 n) ->
             frameInv S3 /\ dateStart S3 = 0 /\ dateEnd S3 = dateMax S3
             /\ timeStart S3 = 1320 /\ timeEnd S3 = 360
             /\ minDate S3 = minDate S1 /\ maxDate S3 = maxDate S1
             /\ dateMax S3 = dateMax S1).
  { intros S2 [-> | (n & Hn & ->)] S3 [-> | (n' & Hn' & ->)];
      unfold frameInv; cbn; rewrite ?K1, ?K2, ?K3, ?K4, ?K5, ?K6, ?K7, ?K8;
      repeat split; try assumption; try lia. }
  match goal with
  | |- context [match parseInt10 ?a with Some ds => with_dateStepDays ?S2 _ | None => _ end] =>
      specialize (G S2)
  end.
  assert (G' := G).
  match type of G' with
  | ?A -> _ =>
      assert (HA : A)
  end.
  { destruct (parseInt10 match attr_timeStep attrs with Some s => s | None => "15"%string end)
      as [ts|]; [right; exists (Z.max 1 ts); split; [lia | reflexivity] | left; reflexivity]. }
  specialize (G' HA). clear G.
  match goal with
  | |- context [match parseInt10 ?a with Some ds => with_dateStepDays ?S2 _ | None => _ end] =>
      set (S3 := match parseInt10 a with Some ds => with_dateStepDays S2 (Z.max 1 ds)
                                    | None => S2 end)
  end.
  assert (H3 : frameInv S3 /\ dateStart S3 = 0 /\ dateEnd S3 = dateMax S3
               /\ timeStart S3 = 1320 /\ timeEnd S3 = 360
               /\ minDate S3 = minDate S1 /\ maxDate S3 = maxDate S1
               /\ dateMax S3 = dateMax S1).
  { apply G'. unfold S3.
    destruct (parseInt10 match attr_dateStepDays attrs with Some s => s | None => "1"%string end)
      as [ds|]; [right; exists (Z.max 1 ds); split; [lia | reflexivity] | left; reflexivity]. }
  destruct H3 as (F & D1 & D2 & T1 & T2 & M1 & M2 & M3).
  repeat (split; [assumption|]).
  intros Y1 Y2. rewrite M1 in Y1. rewrite M2 in Y2. rewrite M1, M2, M3.
  rewrite Edm in *.
  rewrite (daysBetween_days hostOffsetMs hostOffset_steady _ _ Y1 Y2) in *.
  split; [reflexivity|]. split; [lia|].
  split; [exact F|]. rewrite D1, D2, T1, T2, M3. lia.
Qed.

End Connecting.

(** ** A zone with a constant offset *)

(** [Date.UTC] of the UTC fields of a whole second gives the second back,
    outside the years 0..99. *)
Lemma Date_UTC_utcParts (u : Z) :
  u mod 1000 = 0 ->
  two_digit_year (YearFromDay (u / msPerDay)) = false ->
  let p := utcParts u in
  Date_UTC (p_year p) (p_month p - 1) (p_day p) (p_hour p) (p_minute p) (p_second p) = u.
Proof.
  intros Hu Hy p. subst p. unfold utcParts, Date_UTC.
  cbn [p_year p_month p_day p_hour p_minute p_second].
  unfold MakeFullYear. rewrite Hy.
  replace (MonthFromDay (u / msPerDay) + 1 - 1) with (MonthFromDay (u / msPerDay)) by lia.
  rewrite MakeDay_fields.
  unfold msPerDay in *. Z.div_mod_to_equations. lia.
Qed.

Lemma getOffsetMinutes_fixed (k : Z) (tz : string) (t : Z) :
  t mod 1000 = 0 ->
  two_digit_year (YearFromDay ((t + k * 60000) / msPerDay)) = false ->
  getOffsetMinutes (fixedOffsetFormat k) tz t = Some k.
Proof.
  intros Ht Hy. unfold getOffsetMinutes, fixedOffsetFormat.
  rewrite Date_UTC_utcParts; [|Z.div_mod_to_equations; lia | exact Hy].
  f_equal. replace (t + k * 60000 - t) with (k * 60000) by lia.
  apply Z.div_mul. lia.
Qed.

(** X16: in a zone that stays [k] minutes from UTC, [#localToEpoch] undoes
    the formatter: from the wall-clock fields the zone shows at a
    whole-second instant t it computes t again, in one round of its loop
    and without the one-hour fallback; the offset found at t is k, and
    [#toISOWithOffset] writes those fields followed by the sign and the
    hours and minutes of k.  (The instants t + k and t + 2k minutes must
    lie outside the years 0..99, where [Date.UTC] remaps the year.) *)
Theorem X16_localToEpoch_inverts_fixed_offset (k : Z) (tz : string) (t : Z) :
  t mod 1000 = 0 ->
  two_digit_year (YearFromDay ((t + k * 60000) / msPerDay)) = false ->
  two_digit_year (YearFromDay ((t + 2 * (k * 60000)) / msPerDay)) = false ->
  let p := utcParts (t + k * 60000) in
  fixedOffsetFormat k tz t = Some p
  /\ localToEpoch (fixedOffsetFormat k) tz
       (p_year p) (p_month p) (p_day p) (p_hour p) (p_minute p) (p_second p) = Some t
  /\ getOffsetMinutes (fixedOffsetFormat k) tz t = Some k
  /\ toISOWithOffset (fixedOffsetFormat k) tz
       (p_year p) (p_month p) (p_day p) (p_hour p) (p_minute p) (p_second p)
     = Some (pad4 (p_year p) ++ "-" ++ pad2 (p_month p) ++ "-" ++ pad2 (p_day p) ++ "T"
             ++ pad2 (p_hour p) ++ ":" ++ pad2 (p_minute p) ++ ":" ++ pad2 (p_second p)
             ++ (if (0 <=? k)%Z then "+" else "-")
             ++ pad2 (Math_floor (JS.div (Z.abs k) 60)) ++ ":"
             ++ pad2 (JS.rem (Z.abs k) 60))%string.
Proof.
  intros Ht Hy1 Hy2 p.
  assert (Hg : Date_UTC (p_year p) (p_month p - 1) (p_day p)
                        (p_hour p) (p_minute p) (p_second p) = t + k * 60000).
  { apply Date_UTC_utcParts; [Z.div_mod_to_equations; lia | exact Hy1]. }
  assert (Ot : getOffsetMinutes (fixedOffsetFormat k) tz t = Some k)
    by (apply getOffsetMinutes_fixed; assumption).
  assert (L : localToEpoch (fixedOffsetFormat k) tz
                (p_year p) (p_month p) (p_day p) (p_hour p) (p_minute p) (p_second p)
              = Some t).
  { unfold localToEpoch. rewrite Hg.
    rewrite getOffsetMinutes_fixed;
      [| Z.div_mod_to_equations; lia
       | replace (t + k * 60000 + k * 60000) with (t + 2 * (k * 60000)) by lia; exact Hy2].
    replace (t + k * 60000 - k * 60000) with t by lia.
    cbn [refineOffset]. rewrite Ot. rewrite Z.eqb_refl.
    unfold fixedOffsetFormat. fold p. rewrite !Z.eqb_refl. reflexivity. }
  split; [reflexivity|]. split; [exact L|]. split; [exact Ot|].
  unfold toISOWithOffset. rewrite L, Ot. reflexivity.
Qed.

(** ** The date setter and the payload's texts *)

Section DateSetter.

Variable hostOffsetMs : Z -> Z.
Variable formatToParts : string -> Z -> option DateParts.

Hypothesis hostOffset_steady :
  forall m n, 2 * Z.abs (hostOffsetMs m - hostOffsetMs n) < msPerDay.

(** X13: with dateStepDays = 1, assigning to [dateRange] two dates that
    lie within the bounds and reading [dateRange] back gives the same two
    dates, the earlier one first (the setter orders them); and an
    assignment in which either value cannot be read as a date changes
    nothing and emits nothing.  (Dates outside the years 0..99.) *)
Theorem X13_dateRange_set_then_get (a b : JSDate) (S : State) :
  dateMin S = 0 -> dateStepDays S = 1 ->
  two_digit_year (getFullYear (minDate S)) = false ->
  two_digit_year (getFullYear a) = false ->
  two_digit_year (getFullYear b) = false ->
  minDate S <= a <= minDate S + dateMax S ->
  minDate S <= b <= minDate S + dateMax S ->
  get_dateRange (fst (set_dateRange hostOffsetMs formatToParts (VDate a) (VDate b) S))
  = (Z.min a b, Z.max a b)
  /\ (forall vstart vend,
        coerceDateOnly vstart = None \/ coerceDateOnly vend = None ->
        set_dateRange hostOffsetMs formatToParts vstart vend S = (S, Some [])).
Proof using hostOffset_steady.
  intros Hmin Hstep Ym Ya Yb Ra Rb. split.
  - unfold set_dateRange, coerceDateOnly.
    rewrite !newDate_fields by assumption. cbn [fst].
    unfold dateToIdx.
    rewrite !(daysBetween_days hostOffsetMs hostOffset_steady) by assumption.
    rewrite clampAndSyncDates_ordered.
    cbn [with_dates dateMin dateMax dateStart dateEnd dateStepDays].
    rewrite Hmin, Hstep, !snapToStep_step1.
    rewrite !clamp_id by lia.
    unfold get_dateRange. rewrite !idxToDate_shift.
    cbn [with_dates minDate dateStart dateEnd]. f_equal; lia.
  - intros vstart vend [H | H]; unfold set_dateRange; rewrite H;
      [reflexivity | now destruct (coerceDateOnly vstart)].
Qed.

End DateSetter.

Lemma time_text_day (m : Z) : 0 <= m <= 5999 -> time_text_checked m = true.
Proof.
  intros Hm. apply (checked_below time_text_checked 6000); [vm_compute; reflexivity | lia].
Qed.

Section PayloadTexts.

Variable formatToParts : string -> Z -> option DateParts.

(** The time texts of a payload are the ones [#fmtHHMMSS] writes. *)
Lemma emit_time_texts (S : State) (p : Payload) :
  emit formatToParts S = Some p ->
  ev_timeStart p = fmtHHMMSS (timeStart S) /\ ev_timeEnd p = fmtHHMMSS (timeEnd S).
Proof.
  intros Hp. unfold emit in Hp. cbn [minToHMS] in Hp.
  destruct (toISOWithOffset _ _ _ _ _ _ _ _) as [a|] in Hp; [|discriminate].
  destruct (toISOWithOffset _ _ _ _ _ _ _ _) as [b|] in Hp; [|discriminate].
  injection Hp as <-. split; reflexivity.
Qed.

(** X17: the texts of an emitted payload say what its numbers say: while
    both times are minutes of the day (0..1439) the texts timeStart and
    timeEnd are read by [parseTime] as timeStartMinutes and timeEndMinutes,
    and while the selected dates have four-digit years the texts dateStart
    and dateEnd are read by [#coerceDateOnly] as the selected dates. *)
Theorem X17_payload_texts_read_back (S : State) (p : Payload) :
  emit formatToParts S = Some p ->
  0 <= timeStart S <= 1439 -> 0 <= timeEnd S <= 1439 ->
  1000 <= getFullYear (idxToDate S (dateStart S)) <= 9999 ->
  1000 <= getFullYear (idxToDate S (dateEnd S)) <= 9999 ->
  parseTime (ev_timeStart p) = Some (ev_timeStartMinutes p)
  /\ parseTime (ev_timeEnd p) = Some (ev_timeEndMinutes p)
  /\ coerceDateOnly (VString (ev_dateStart p)) = Some (idxToDate S (dateStart S))
  /\ coerceDateOnly (VString (ev_dateEnd p)) = Some (idxToDate S (dateEnd S)).
Proof.
  intros Hp Ts Te Ys Ye.
  destruct (emit_time_texts S p Hp) as [Es Ee].
  apply emit_inversion in Hp.
  destruct Hp as (_ & _ & _ & _ & Ds & De & Ms & Me).
  rewrite Es, Ee, Ds, De, Ms, Me.
  pose proof (same_result_eq _ _ (time_text_day (timeStart S) ltac:(lia))) as Ps.
  pose proof (same_result_eq _ _ (time_text_day (timeEnd S) ltac:(lia))) as Pe.
  destruct (Z.leb_spec (timeStart S) 1439); [|lia].
  destruct (Z.leb_spec (timeEnd S) 1439); [|lia].
  split; [exact Ps|]. split; [exact Pe|].
  unfold coerceDateOnly.
  rewrite (date_fields_of_text _ Ys), (date_fields_of_text _ Ye).
  replace (getMonth (idxToDate S (dateStart S)) + 1 - 1)
    with (getMonth (idxToDate S (dateStart S))) by lia.
  replace (getMonth (idxToDate S (dateEnd S)) + 1 - 1)
    with (getMonth (idxToDate S (dateEnd S))) by lia.
  rewrite !newDate_fields by (unfold two_digit_year; lia).
  split; reflexivity.
Qed.

End PayloadTexts.
